(** * AI-Email-Assistant: the classifier and the response generator of
    [backend.py], embedded in Rocq.

    A Python [str] is a [string], one character per code point; the model
    is exact on ASCII text: [lower] and [title] change the letters A-Z and
    a-z only.  A Python [dict] is an association list in insertion order,
    because [max(scores, key=scores.get)] depends on the order of
    iteration.  Exceptions are the left summand of ExtLib's error monad
    [sum exn]; the endpoint behind [requests.post] and the decoder
    [json.loads] are the fields of a [world] that every function of the
    model path takes as an argument. *)

From Stdlib Require Import String Ascii List ZArith Lia Bool.
From ExtLib Require Import Structures.Monad Structures.MonadExc Data.Monads.EitherMonad.
Import ListNotations.
Import MonadNotation.
Local Open Scope string_scope.
Local Open Scope Z_scope.
Local Open Scope monad_scope.
Set Warnings "-register-all".

(** ** Python exceptions and the error monad *)

Module Py.

(** The exception classes that the code of [backend.py] can meet.  All of
    them derive from [Exception]; [RequestException] stands for the whole
    family [requests.exceptions.RequestException] and carries [str(e)],
    the text that the handlers of lines 105 and 273 put in their message. *)
Inductive exn : Type :=
| ValueError
| KeyError
| IndexError
| TypeError
| AttributeError
| RecursionError
| JSONDecodeError
| RequestException (msg : string)
| Exception (msg : string).

Definition result (A : Type) : Type := sum exn A.

#[global] Instance Monad_result : Monad result := Monad_either exn.
#[global] Instance Exception_result : MonadExc exn result := Exception_either exn.

Definition Ok {A : Type} (a : A) : result A := inr a.
Definition Raise {A : Type} (e : exn) : result A := inl e.

(** [try: body except Exception: handler] (every modelled class derives
    from [Exception]). *)
Definition try_except {A : Type} (body : result A) (handler : exn -> result A)
  : result A :=
  catch body handler.

(** [try: body except cls: handler], for one class selected by [is_cls];
    any other exception goes on. *)
Definition try_except_only {A : Type} (is_cls : exn -> bool)
    (body : result A) (handler : exn -> result A) : result A :=
  catch body (fun e => if is_cls e then handler e else raise e).

Definition is_JSONDecodeError (e : exn) : bool :=
  match e with JSONDecodeError => true | _ => false end.

(** [try: body except requests.exceptions.RequestException as e: handler],
    the handler reading [str(e)]; any other exception goes on. *)
Definition try_except_request {A : Type}
    (body : result A) (handler : string -> result A) : result A :=
  catch body
    (fun e => match e with RequestException msg => handler msg | _ => raise e end).

(** *** Strings *)

Definition is_upper (c : ascii) : bool :=
  let n := nat_of_ascii c in (Nat.leb 65 n && Nat.leb n 90)%bool.

Definition is_lower (c : ascii) : bool :=
  let n := nat_of_ascii c in (Nat.leb 97 n && Nat.leb n 122)%bool.

Definition is_letter (c : ascii) : bool := (is_lower c || is_upper c)%bool.

Definition to_lower (c : ascii) : ascii :=
  if is_upper c then ascii_of_nat (nat_of_ascii c + 32) else c.

Definition to_upper (c : ascii) : ascii :=
  if is_lower c then ascii_of_nat (nat_of_ascii c - 32) else c.

(** [s.lower()] *)
Fixpoint lower (s : string) : string :=
  match s with
  | EmptyString => EmptyString
  | String c t => String (to_lower c) (lower t)
  end.

(** The characters that a Rocq literal cannot hold directly. *)
Definition nl : string := String (ascii_of_nat 10) EmptyString.
Definition dq : string := String (ascii_of_nat 34) EmptyString.

(** The lines of a triple-quoted literal, each closed by a newline. *)
Fixpoint unlines (ls : list string) : string :=
  match ls with
  | [] => EmptyString
  | l :: rest => l ++ nl ++ unlines rest
  end.

(** [needle in hay] for two strings: substring containment. *)
Fixpoint str_in (needle hay : string) : bool :=
  (String.prefix needle hay ||
   match hay with
   | EmptyString => false
   | String _ t => str_in needle t
   end)%bool.

(** [s.replace(a, b)] for one-character [a] and [b]. *)
Fixpoint replace_char (a b : ascii) (s : string) : string :=
  match s with
  | EmptyString => EmptyString
  | String c t => String (if Ascii.eqb c a then b else c) (replace_char a b t)
  end.

(** [s.split(sep)] for a one-character separator: the pieces between the
    occurrences of [sep]; never the empty list. *)
Fixpoint split_char (sep : ascii) (s : string) : list string :=
  match s with
  | EmptyString => [EmptyString]
  | String c t =>
      if Ascii.eqb c sep then EmptyString :: split_char sep t
      else match split_char sep t with
           | [] => [String c EmptyString]
           | p :: ps => String c p :: ps
           end
  end.

(** [l[i]] for a list and an index [i >= 0]. *)
Definition index {A : Type} (l : list A) (i : nat) : result A :=
  match nth_error l i with
  | Some x => Ok x
  | None => Raise IndexError
  end.

(** [s.title()] on ASCII text: the first letter of every run of letters in
    upper case, the other letters of the run in lower case.  [prev] is
    CPython's [previous_is_cased].  Code points 128 to 255 are left as they
    are, where Python also cases the Latin-1 letters (and writes some of
    them with code points above 255, or with two characters); what is
    proved of the values of [title] is stated for ASCII text, see
    [is_ascii]. *)
Fixpoint title_from (prev : bool) (s : string) : string :=
  match s with
  | EmptyString => EmptyString
  | String c t =>
      if is_lower c then
        String (if prev then c else to_upper c) (title_from true t)
      else if is_upper c then
        String (if prev then to_lower c else c) (title_from true t)
      else String c (title_from false t)
  end.

Definition title (s : string) : string := title_from false s.

(** The text is ASCII: every code point is below 128. *)
Definition is_ascii (s : string) : bool :=
  forallb (fun c => Nat.ltb (nat_of_ascii c) 128) (list_ascii_of_string s).

(** [str.isspace] on one character (code points below 256). *)
Definition is_space (c : ascii) : bool :=
  let n := nat_of_ascii c in
  ((Nat.leb 9 n && Nat.leb n 13) || (Nat.leb 28 n && Nat.leb n 32)
   || Nat.eqb n 133 || Nat.eqb n 160)%bool.

Fixpoint lstrip (s : string) : string :=
  match s with
  | EmptyString => EmptyString
  | String c t => if is_space c then lstrip t else s
  end.

Fixpoint rstrip (s : string) : string :=
  match s with
  | EmptyString => EmptyString
  | String c t =>
      match rstrip t with
      | EmptyString => if is_space c then EmptyString else String c EmptyString
      | t' => String c t'
      end
  end.

(** [s.strip()] *)
Definition strip (s : string) : string := rstrip (lstrip s).

(** [s.find(c)] for a one-character [c]: the first index, or -1. *)
Fixpoint find_char (c : ascii) (s : string) : Z :=
  match s with
  | EmptyString => -1
  | String d t =>
      if Ascii.eqb d c then 0
      else let r := find_char c t in if r =? -1 then -1 else r + 1
  end.

(** [s.rfind(c)] for a one-character [c]: the last index, or -1. *)
Fixpoint rfind_char (c : ascii) (s : string) : Z :=
  match s with
  | EmptyString => -1
  | String d t =>
      let r := rfind_char c t in
      if r =? -1 then (if Ascii.eqb d c then 0 else -1) else r + 1
  end.

(** [s[i:j]] for [0 <= i] and [0 <= j]; indices beyond the end are
    clipped, as Python does. *)
Definition slice (s : string) (i j : Z) : string :=
  String.substring (Z.to_nat i) (Z.to_nat (j - i)) s.

(** *** Dictionaries in insertion order *)

Definition dict (V : Type) : Type := list (string * V).

Fixpoint dict_lookup {V : Type} (d : dict V) (k : string) : option V :=
  match d with
  | [] => None
  | (k', v) :: d' => if String.eqb k' k then Some v else dict_lookup d' k
  end.

(** [d[k] = v]: replaces in place when [k] is present, else appends. *)
Fixpoint dict_set {V : Type} (d : dict V) (k : string) (v : V) : dict V :=
  match d with
  | [] => [(k, v)]
  | (k', v') :: d' =>
      if String.eqb k' k then (k', v) :: d' else (k', v') :: dict_set d' k v
  end.

(** [d.get(k, default)] *)
Definition dict_get {V : Type} (d : dict V) (k : string) (default : V) : V :=
  match dict_lookup d k with
  | Some v => v
  | None => default
  end.

(** [d[k]] *)
Definition dict_item {V : Type} (d : dict V) (k : string) : result V :=
  match dict_lookup d k with
  | Some v => Ok v
  | None => Raise KeyError
  end.

(** [k in d] *)
Definition dict_mem {V : Type} (d : dict V) (k : string) : bool :=
  match dict_lookup d k with
  | Some _ => true
  | None => false
  end.

Definition dict_keys {V : Type} (d : dict V) : list string := map fst d.
Definition dict_values {V : Type} (d : dict V) : list V := map snd d.

(** [l.append(x)] *)
Definition list_append {A : Type} (l : list A) (x : A) : list A := (l ++ [x])%list.

(** *** [max] *)

(** The loop of [max(iterable, key=f)] after the first item: a later item
    replaces the current one only when its key is strictly greater. *)
Fixpoint max_loop {A : Type} (key : A -> Z) (best : A) (l : list A) : A :=
  match l with
  | [] => best
  | x :: l' => max_loop key (if key x >? key best then x else best) l'
  end.

(** [max(l, key=f)]; [ValueError] on an empty sequence. *)
Definition max_by {A : Type} (key : A -> Z) (l : list A) : result A :=
  match l with
  | [] => Raise ValueError
  | x :: l' => Ok (max_loop key x l')
  end.

(** [max(l)] on integers. *)
Definition max_of (l : list Z) : result Z := max_by (fun z => z) l.

End Py.

(** ** Values decoded from JSON, and the dictionaries the classifier returns *)

(** What [json.loads] can produce: [None], [bool], [int], [float] (kept as
    its literal), [str], [list] and [dict] with string keys. *)
Inductive pyval : Type :=
| PNone
| PBool (b : bool)
| PInt (z : Z)
| PFloat (literal : string)
| PStr (s : string)
| PList (items : list pyval)
| PDict (entries : list (string * pyval)).

(** ** The model-serving endpoint and the JSON decoder *)

Module Http.
Import Py.

(** The keyword arguments of [requests.post(url, json=payload, timeout=t)];
    the two floats of ["options"] are kept as their literals. *)
Record request : Type := {
  url : string;
  model : string;
  prompt : string;
  stream : bool;
  temperature : string;
  top_p : string;
  timeout : Z
}.

(** What the call does: it raises an exception [e] of the family
    [requests.exceptions.RequestException] (no connection, timeout, ...),
    [message] being [str(e)], or it returns a response with a status code
    and a text. *)
Inductive outcome : Type :=
| Fails (message : string)
| Responds (status_code : Z) (text : string).

(** Why [json.loads] refuses a text: it is no JSON ([JSONDecodeError] with
    its message), it holds an integer of more digits than the interpreter
    converts ([ValueError]), or it nests deeper than the interpreter
    recurses ([RecursionError]). *)
Inductive refusal : Type :=
| Malformed (message : string)
| IntegerTooLong
| NestingTooDeep.

(** The two collaborators outside the repository: the endpoint behind
    [requests.post] and the decoder [json.loads]; [json_loads] is [None]
    on a text that the decoder refuses, and [json_refusal] then says
    why. *)
Record world : Type := {
  post : request -> outcome;
  json_loads : string -> option pyval;
  json_refusal : string -> refusal
}.

(** Two worlds to run the code in: no endpoint at all, and an endpoint
    that answers every request with one status and text, next to a decoder
    given by a finite table. *)
Definition offline : world :=
  {| post := fun _ => Fails "Connection refused";
     json_loads := fun _ => None;
     json_refusal := fun _ => Malformed "Expecting value: line 1 column 1 (char 0)" |}.

Definition scripted (status_code : Z) (text : string) (decoded : dict pyval)
  : world :=
  {| post := fun _ => Responds status_code text;
     json_loads := fun s => dict_lookup decoded s;
     json_refusal := fun _ => Malformed "Expecting value: line 1 column 1 (char 0)" |}.

Definition requests_post (w : world) (r : request) : result (Z * string) :=
  match post w r with
  | Fails message => Raise (RequestException message)
  | Responds status_code text => Ok (status_code, text)
  end.

(** [json.loads(s)] *)
Definition loads (w : world) (s : string) : result pyval :=
  match json_loads w s with
  | Some v => Ok v
  | None =>
      match json_refusal w s with
      | Malformed _ => Raise JSONDecodeError
      | IntegerTooLong => Raise ValueError
      | NestingTooDeep => Raise RecursionError
      end
  end.

(** [response.json()]: [requests] decodes the text with [json.loads] and
    turns a [JSONDecodeError] into its own error of the same message, which
    derives from [RequestException]; any other exception goes on. *)
Definition response_json (w : world) (text : string) : result pyval :=
  match json_loads w text with
  | Some v => Ok v
  | None =>
      match json_refusal w text with
      | Malformed message => Raise (RequestException message)
      | IntegerTooLong => Raise ValueError
      | NestingTooDeep => Raise RecursionError
      end
  end.

(** [v.get(k, default)]: only a [dict] has the method. *)
Definition py_get (v : pyval) (k : string) (default : pyval) : result pyval :=
  match v with
  | PDict d => Ok (dict_get d k default)
  | _ => Raise AttributeError
  end.

(** [v.find(c)], [v.rfind(c)], [v.strip()]: only a [str] has them. *)
Definition py_find (v : pyval) (c : ascii) : result Z :=
  match v with
  | PStr s => Ok (find_char c s)
  | _ => Raise AttributeError
  end.

Definition py_rfind (v : pyval) (c : ascii) : result Z :=
  match v with
  | PStr s => Ok (rfind_char c s)
  | _ => Raise AttributeError
  end.

Definition py_strip (v : pyval) : result string :=
  match v with
  | PStr s => Ok (strip s)
  | _ => Raise AttributeError
  end.

(** [v[i:j]] on the value that [find] was just called on. *)
Definition py_slice (v : pyval) (i j : Z) : result string :=
  match v with
  | PStr s => Ok (slice s i j)
  | _ => Raise TypeError
  end.

(** [key in v] for a string [key]: key of a [dict], item of a [list],
    substring of a [str]; [TypeError] on a value that is not iterable. *)
Definition py_contains (v : pyval) (key : string) : result bool :=
  match v with
  | PDict d => Ok (dict_mem d key)
  | PList items =>
      Ok (existsb (fun x => match x with PStr s => String.eqb s key | _ => false end)
            items)
  | PStr s => Ok (str_in key s)
  | _ => Raise TypeError
  end.

(** [all(key in v for key in keys)], stopping at the first [False]. *)
Fixpoint all_keys_in (v : pyval) (keys : list string) : result bool :=
  match keys with
  | [] => ret true
  | key :: rest =>
      b <- py_contains v key ;;
      if b : bool then all_keys_in v rest else ret false
  end.

End Http.

(** ** class EmailClassifier *)

Module EmailClassifier.
Import Py Http.

(** The keyword table of [_determine_category], in declaration order. *)
Definition categories : dict (list string) :=
  [ ("technical_support",
      ["error"; "bug"; "not working"; "broken"; "issue"; "problem"; "unable";
       "cannot"; "can't"; "reset"; "password"; "login"; "access"]);
    ("billing",
      ["billing"; "charge"; "payment"; "refund"; "invoice"; "cost"; "price";
       "pricing"; "charged"]);
    ("account", ["account"; "verification"; "verify"; "blocked"]);
    ("integration", ["api"; "integration"; "crm"; "third-party"]);
    ("general", ["help"; "support"; "question"; "query"; "understand"]) ].

Definition high_priority_keywords : list string :=
  ["urgent"; "critical"; "immediate"; "emergency"; "down"; "outage";
   "cannot access"; "completely inaccessible"; "servers are down"].

Definition medium_priority_keywords : list string :=
  ["help"; "support"; "issue"; "problem"; "error"; "unable"].

(** The keys of the table in declaration order, and the three priorities. *)
Definition category_names : list string := dict_keys categories.
Definition priority_names : list string := ["high"; "medium"; "low"].

(** [text = (subject + " " + body).lower()] *)
Definition text_of (subject body : string) : string :=
  lower (subject ++ " " ++ body).

(** [sum(1 for keyword in keywords if keyword in text)] *)
Fixpoint keyword_hits (keywords : list string) (text : string) : Z :=
  match keywords with
  | [] => 0
  | keyword :: rest =>
      (if str_in keyword text then 1 else 0) + keyword_hits rest text
  end.

(** The scoring loop: [scores[category] = score] for every item of the
    table, starting from the empty dictionary. *)
Definition score_all (table : dict (list string)) (text : string) : dict Z :=
  fold_left
    (fun scores '(category, keywords) =>
       dict_set scores category (keyword_hits keywords text))
    table [].

(** The keyword-hit count of one category of the table. *)
Definition category_score (category text : string) : Z :=
  keyword_hits (dict_get categories category []) text.

(** No keyword of any category occurs in the text. *)
Definition no_category_keyword (text : string) : Prop :=
  forall category keywords keyword,
    In (category, keywords) categories -> In keyword keywords ->
    str_in keyword text = false.

(** [max(scores, key=scores.get)]: iterates over the keys of [scores];
    [scores.get] is never [None] on them. *)
Definition max_key (scores : dict Z) : result string :=
  max_by (fun k => dict_get scores k 0) (dict_keys scores).

Definition _determine_category (subject body : string) : result string :=
  let text := text_of subject body in
  let scores := score_all categories text in
  top <- max_of (dict_values scores) ;;
  if top >? 0 then max_key scores else ret "general".

(** [for keyword in keywords: if keyword in text: return ...] *)
Fixpoint any_keyword (keywords : list string) (text : string) : bool :=
  match keywords with
  | [] => false
  | keyword :: rest => if str_in keyword text then true else any_keyword rest text
  end.

Definition _determine_priority (subject body : string) : result string :=
  let text := text_of subject body in
  if any_keyword high_priority_keywords text then ret "high"
  else if any_keyword medium_priority_keywords text then ret "medium"
  else ret "low".

(** ["; ".join(parts)] *)
Fixpoint join (sep : string) (parts : list string) : string :=
  match parts with
  | [] => ""
  | [p] => p
  | p :: rest => p ++ sep ++ join sep rest
  end.

Definition _generate_reasoning (category priority subject body : string)
  : result string :=
  let text := text_of subject body in
  let reasoning_parts : list string := [] in
  let reasoning_parts :=
    if (str_in "error" text || str_in "issue" text || str_in "problem" text)%bool
    then list_append reasoning_parts "Contains technical issue keywords"
    else reasoning_parts in
  let reasoning_parts :=
    if (str_in "billing" text || str_in "charge" text || str_in "payment" text)%bool
    then list_append reasoning_parts "Contains billing-related terms"
    else reasoning_parts in
  let reasoning_parts :=
    if (str_in "account" text || str_in "verification" text || str_in "login" text)%bool
    then list_append reasoning_parts "Contains account-related terms"
    else reasoning_parts in
  let reasoning_parts :=
    if (str_in "api" text || str_in "integration" text)%bool
    then list_append reasoning_parts "Contains integration-related terms"
    else reasoning_parts in
  let reasoning_parts :=
    if String.eqb priority "high"
    then list_append reasoning_parts "Contains urgent/critical keywords"
    else if String.eqb priority "medium"
    then list_append reasoning_parts "Contains support-related keywords"
    else reasoning_parts in
  let reasoning_parts :=
    match reasoning_parts with
    | [] => list_append reasoning_parts "General inquiry based on content analysis"
    | _ => reasoning_parts
    end in
  ret ("Classified as " ++ category ++ " with " ++ priority ++ " priority. "
       ++ join "; " reasoning_parts ++ ".").

(** The dictionary literal returned by [_classify_rule_based]. *)
Definition classification (category priority reasoning : string) : pyval :=
  PDict [ ("category", PStr category);
          ("priority", PStr priority);
          ("reasoning", PStr reasoning) ].

Definition _classify_rule_based (sender subject body : string) : result pyval :=
  category <- _determine_category subject body ;;
  priority <- _determine_priority subject body ;;
  reasoning <- _generate_reasoning category priority subject body ;;
  ret (classification category priority reasoning).

(** [self] *)
Record t : Type := { model_url : string; model_name : string }.

(** [__init__], with the default of [model_url]. *)
Definition init (model_url : string) : t :=
  {| model_url := model_url; model_name := "llama3.2:3b" |}.
Definition default : t := init "http://localhost:11434".

Definition classify_prompt (sender subject body : string) : string :=
  nl ++ unlines
    ["        Analyze the following email and classify it into a category and priority level.";
     "";
     "        Email Details:";
     "        From: " ++ sender;
     "        Subject: " ++ subject;
     "        Body: " ++ body;
     "";
     "        Categories to choose from:";
     "        - technical_support: Issues with software, bugs, errors, login problems";
     "        - billing: Payment issues, charges, refunds, pricing questions";
     "        - account: Account verification, access issues, account management";
     "        - integration: API questions, third-party integrations, CRM connections";
     "        - general: General inquiries, questions not fitting other categories";
     "";
     "        Priority levels:";
     "        - high: Urgent issues, system down, critical problems";
     "        - medium: Important issues that need attention but not critical";
     "        - low: General questions, non-urgent requests";
     "";
     "        Respond in JSON format only:";
     "        {";
     "            " ++ dq ++ "category" ++ dq ++ ": " ++ dq ++ "category_name" ++ dq ++ ",";
     "            " ++ dq ++ "priority" ++ dq ++ ": " ++ dq ++ "priority_level" ++ dq ++ ",";
     "            " ++ dq ++ "reasoning" ++ dq ++ ": " ++ dq ++ "Brief explanation of why this classification was chosen" ++ dq;
     "        }"]
  ++ "        ".

(** The block under [if response.status_code == 200:].  [Some c] is
    [return c]; [None] means that control leaves the block and reaches the
    [raise] after it. *)
Definition extract_classification (w : world) (text : string)
  : result (option pyval) :=
  result <- response_json w text ;;
  response_text <- py_get result "response" (PStr "") ;;
  try_except_only is_JSONDecodeError
    (start_idx <- py_find response_text "{" ;;
     last <- py_rfind response_text "}" ;;
     let end_idx := last + 1 in
     if (negb (start_idx =? -1) && (end_idx >? start_idx))%bool then
       json_str <- py_slice response_text start_idx end_idx ;;
       classification <- loads w json_str ;;
       valid <- all_keys_in classification ["category"; "priority"; "reasoning"] ;;
       if valid : bool then ret (Some classification) else ret None
     else ret None)
    (fun _ => ret None).

(** The request that [_classify_with_llama] sends. *)
Definition classify_request (self : t) (sender subject body : string) : request :=
  let prompt := classify_prompt sender subject body in
  {| url := model_url self ++ "/api/generate";
     model := model_name self;
     prompt := prompt;
     stream := false;
     temperature := "0.1";
     top_p := "0.9";
     timeout := 30 |}.

Definition _classify_with_llama (self : t) (w : world)
    (sender subject body : string) : result pyval :=
  let payload := classify_request self sender subject body in
  try_except_request
    ('(status_code, text) <- requests_post w payload ;;
     returned <-
       (if status_code =? 200 then extract_classification w text else ret None) ;;
     match returned with
     | Some classification => ret classification
     | None => raise (Exception "Invalid response from Llama API")
     end)
    (fun e => raise (Exception ("Failed to connect to Ollama: " ++ e))).

(** [classify_email]: the two [print] calls of the handler write to the
    standard output and do not touch the result. *)
Definition classify_email (self : t) (w : world)
    (sender subject body : string) : result pyval :=
  try_except
    (_classify_with_llama self w sender subject body)
    (fun e => _classify_rule_based sender subject body).

End EmailClassifier.

(** ** class ResponseGenerator *)

Module ResponseGenerator.
Import Py Http.

(** [self] *)
Record t : Type := { model_url : string; model_name : string }.

Definition init (model_url : string) : t :=
  {| model_url := model_url; model_name := "llama3.2:3b" |}.
Definition default : t := init "http://localhost:11434".

(** [sender.split('@')[0].replace('.', ' ').title()] *)
Definition sender_name_of (sender : string) : result string :=
  local <- index (split_char "@" sender) 0 ;;
  ret (title (replace_char "." " " local)).

Definition generate_prompt (sender subject body category tone sender_name : string)
  : string :=
  nl ++ unlines
    ["        Generate a customer service email response for the following email:";
     "";
     "        Original Email:";
     "        From: " ++ sender;
     "        Subject: " ++ subject;
     "        Body: " ++ body;
     "";
     "        Email Category: " ++ category;
     "        Required Tone: " ++ tone;
     "";
     "        Guidelines:";
     "        - Address the customer by name: " ++ sender_name;
     "        - Use a " ++ tone ++ " tone throughout";
     "        - Acknowledge their concern specifically";
     "        - Provide helpful next steps or solutions";
     "        - Keep it concise but complete";
     "        - End with appropriate contact information";
     "        - Don't include subject line, just the email body";
     "";
     "        Generate only the email response text:"]
  ++ "        ".

(** The block under [if response.status_code == 200:]: [Some text] is
    [return response_text]. *)
Definition extract_text (w : world) (text : string) : result (option string) :=
  result <- response_json w text ;;
  response <- py_get result "response" (PStr "") ;;
  response_text <- py_strip response ;;
  match response_text with
  | EmptyString => ret None
  | _ => ret (Some response_text)
  end.

(** The request that [_generate_with_llama] sends. *)
Definition generate_request (self : t)
    (sender subject body category tone sender_name : string) : request :=
  let prompt := generate_prompt sender subject body category tone sender_name in
  {| url := model_url self ++ "/api/generate";
     model := model_name self;
     prompt := prompt;
     stream := false;
     temperature := "0.7";
     top_p := "0.9";
     timeout := 45 |}.

Definition _generate_with_llama (self : t) (w : world)
    (sender subject body category tone : string) : result string :=
  sender_name <- sender_name_of sender ;;
  let payload :=
    generate_request self sender subject body category tone sender_name in
  try_except_request
    ('(status_code, text) <- requests_post w payload ;;
     returned <- (if status_code =? 200 then extract_text w text else ret None) ;;
     match returned with
     | Some response_text => ret response_text
     | None => raise (Exception "Invalid response from Llama API")
     end)
    (fun e => raise (Exception ("Failed to connect to Ollama: " ++ e))).

Definition greetings (sender_name : string) : dict string :=
  [ ("professional", "Dear " ++ sender_name ++ ",");
    ("friendly", "Hi " ++ sender_name ++ "!");
    ("formal", "Dear " ++ sender_name ++ ",");
    ("casual", "Hey " ++ sender_name ++ ",") ].

Definition templates : dict (dict string) :=
  [ ("technical_support",
      [ ("professional",
         "Thank you for reaching out regarding the technical issue you're experiencing. I understand how frustrating this must be. Our technical team will investigate this matter promptly and provide you with a resolution within 24 hours.");
        ("friendly",
         "Thanks for letting us know about this issue! I totally understand how annoying technical problems can be. Our team is on it and we'll get this sorted out for you ASAP.");
        ("formal",
         "We acknowledge receipt of your technical support request. Our engineering team will conduct a thorough investigation and provide you with a comprehensive solution within one business day.");
        ("casual",
         "Got it! Thanks for the heads up about this issue. Our tech team will take a look and get back to you soon.") ]);
    ("billing",
      [ ("professional",
         "Thank you for contacting us about your billing inquiry. I will personally review your account and ensure any discrepancies are resolved immediately. You can expect a follow-up within 2 business hours.");
        ("friendly",
         "Thanks for reaching out about your billing question! I'll take a look at your account right away and make sure everything is sorted out for you.");
        ("formal",
         "We have received your billing inquiry and will conduct a comprehensive review of your account. Any necessary adjustments will be processed within 2 business hours.");
        ("casual",
         "Hey! Thanks for the message about billing. I'll check your account and fix any issues right away.") ]);
    ("account",
      [ ("professional",
         "Thank you for your account-related inquiry. I will assist you in resolving this matter promptly. Please allow me to review your account details and provide you with the necessary steps to resolve this issue.");
        ("friendly",
         "Thanks for reaching out about your account! I'm here to help you get everything sorted out. Let me look into this for you.");
        ("formal",
         "We acknowledge your account verification request. Our security team will review your account and provide the necessary assistance within 4 business hours.");
        ("casual",
         "Hey! No worries about the account issue - I'll help you get it sorted out quickly.") ]);
    ("integration",
      [ ("professional",
         "Thank you for your inquiry about our integration capabilities. I would be happy to provide you with detailed information about our API and CRM integration options. Our technical sales team will contact you within 24 hours.");
        ("friendly",
         "Thanks for asking about our integrations! We have some great API and CRM options that I think you'll love. I'll have our tech team reach out with all the details.");
        ("formal",
         "We appreciate your interest in our integration solutions. Our technical team will provide you with comprehensive documentation and integration options within one business day.");
        ("casual",
         "Cool question about integrations! We've got some solid API options. I'll have the team send over the details soon.") ]);
    ("general",
      [ ("professional",
         "Thank you for reaching out to us. I have received your inquiry and will ensure you receive the appropriate assistance. Our team will respond with detailed information within 24 hours.");
        ("friendly",
         "Thanks for getting in touch! I've got your message and will make sure you get the help you need.");
        ("formal",
         "We acknowledge receipt of your inquiry. Our customer service team will provide you with a comprehensive response within one business day.");
        ("casual",
         "Hey! Thanks for reaching out. I'll make sure you get the info you need.") ]) ].

Definition closings : dict string :=
  [ ("professional", "Best regards," ++ nl ++ "Customer Support Team");
    ("friendly", "Cheers!" ++ nl ++ "The Support Team");
    ("formal", "Sincerely," ++ nl ++ "Customer Service Department");
    ("casual", "Talk soon!" ++ nl ++ "Support Team") ].

(** The tones of the docstring of [generate_response]. *)
Definition tone_names : list string :=
  ["professional"; "friendly"; "formal"; "casual"].

Definition courtesy : string :=
  "If you have any additional questions, please don't hesitate to reach out.".

(** The three selections of [# Build response]; the default of every
    [get] is evaluated before the call, so its subscripts can raise. *)
Definition select_greeting (sender_name tone : string) : result string :=
  fallback <- dict_item (greetings sender_name) "professional" ;;
  ret (dict_get (greetings sender_name) tone fallback).

Definition select_content (category tone : string) : result string :=
  general <- dict_item templates "general" ;;
  let by_tone := dict_get templates category general in
  general' <- dict_item templates "general" ;;
  fallback <- dict_item general' "professional" ;;
  ret (dict_get by_tone tone fallback).

Definition select_closing (tone : string) : result string :=
  fallback <- dict_item closings "professional" ;;
  ret (dict_get closings tone fallback).

Definition _generate_template_response
    (sender subject body category tone : string) : result string :=
  sender_name <- sender_name_of sender ;;
  greeting <- select_greeting sender_name tone ;;
  content <- select_content category tone ;;
  closing <- select_closing tone ;;
  let response :=
    greeting ++ nl ++ nl ++ content ++ nl ++ nl ++ courtesy ++ nl ++ nl ++ closing in
  ret response.

Definition generate_response (self : t) (w : world)
    (sender subject body category tone : string) : result string :=
  try_except
    (_generate_with_llama self w sender subject body category tone)
    (fun e => _generate_template_response sender subject body category tone).

End ResponseGenerator.

(** ** A scripted answer of the endpoint

    The model answers with prose around a JSON object whose category and
    priority are outside the vocabulary of the prompt. *)

Module Scenario.
Import Py Http.

Definition json_str : string :=
  "{" ++ dq ++ "category" ++ dq ++ ": " ++ dq ++ "spam" ++ dq ++ ", "
  ++ dq ++ "priority" ++ dq ++ ": " ++ dq ++ "whenever" ++ dq ++ ", "
  ++ dq ++ "reasoning" ++ dq ++ ": " ++ dq ++ "looks like an advert" ++ dq ++ "}".

Definition response_text : string := "Sure, here it is: " ++ json_str ++ " Done.".

Definition parsed : dict pyval :=
  [ ("category", PStr "spam");
    ("priority", PStr "whenever");
    ("reasoning", PStr "looks like an advert") ].

(** The text of the HTTP response, opaque to the code but for the decoder. *)
Definition http_text : string := "<body of the response>".

Definition answering : world :=
  scripted 200 http_text
    [ (http_text, PDict [("response", PStr response_text); ("done", PBool true)]);
      (json_str, PDict parsed) ].

(** An answer whose object lacks the key "reasoning". *)
Definition short_json : string :=
  "{" ++ dq ++ "category" ++ dq ++ ": " ++ dq ++ "billing" ++ dq ++ ", "
  ++ dq ++ "priority" ++ dq ++ ": " ++ dq ++ "low" ++ dq ++ "}".

Definition incomplete : world :=
  scripted 200 http_text
    [ (http_text, PDict [("response", PStr short_json)]);
      (short_json, PDict [("category", PStr "billing"); ("priority", PStr "low")]) ].

(** An answer whose object holds an integer of 4301 digits, more than
    [json.loads] converts. *)
Fixpoint repeat_char (n : nat) (c : ascii) : string :=
  match n with
  | O => EmptyString
  | S n' => String c (repeat_char n' c)
  end.

Definition long_json : string :=
  "{" ++ dq ++ "category" ++ dq ++ ": " ++ repeat_char 4301 "9" ++ "}".

Definition overlong : world :=
  {| post := fun _ => Responds 200 http_text;
     json_loads :=
       fun s => dict_lookup [(http_text, PDict [("response", PStr long_json)])] s;
     json_refusal := fun _ => IntegerTooLong |}.

(** An endpoint that answers every request with status 503. *)
Definition unavailable : world := scripted 503 "Service Unavailable" [].

(** An endpoint whose generated text is a reply between blank lines. *)
Definition reply_text : string :=
  nl ++ "  Dear Jane, we are on it.  " ++ nl.

Definition replying : world :=
  scripted 200 http_text [ (http_text, PDict [("response", PStr reply_text)]) ].

(** An endpoint whose generated text is white space only. *)
Definition blank : world :=
  scripted 200 http_text [ (http_text, PDict [("response", PStr ("  " ++ nl))]) ].

End Scenario.

(** ** Measures used to state the properties *)

Module Measures.
Import Py.

(** The urgency order of the three priorities. *)
Definition priority_rank (priority : string) : Z :=
  if String.eqb priority "high" then 2
  else if String.eqb priority "medium" then 1
  else 0.

(** The keys that [_classify_with_llama] asks of the decoded object. *)
Definition three_keys : list string := ["category"; "priority"; "reasoning"].

(** A decoder that, like [json.loads], makes a dictionary of every text it
    accepts that opens with a brace. *)
Definition braces_give_dict (loads : string -> option pyval) : Prop :=
  forall s v,
    loads s = Some v ->
    match s with String "{"%char _ => True | _ => False end ->
    exists d, v = PDict d.

(** No request to the endpoint is answered with status 200. *)
Definition endpoint_down (post : Http.request -> Http.outcome) : Prop :=
  forall r,
    match post r with
    | Http.Fails _ => True
    | Http.Responds status_code _ => status_code <> 200
    end.

(** Two strings differ at a position that both have. *)
Fixpoint diverge (a b : string) : bool :=
  match a, b with
  | String c a', String d b' => if Ascii.eqb c d then diverge a' b' else true
  | _, _ => false
  end.

(** Every character of the string is white space. *)
Definition all_space (s : string) : bool :=
  forallb is_space (list_ascii_of_string s).

(** The first and the last character of a string. *)
Definition first_char (s : string) : option ascii :=
  match s with
  | EmptyString => None
  | String c _ => Some c
  end.

Fixpoint last_char (s : string) : option ascii :=
  match s with
  | EmptyString => None
  | String c EmptyString => Some c
  | String _ t => last_char t
  end.

End Measures.

(** * Properties *)

(** ** Facts about the Python primitives *)

Module PyFacts.
Import Py.

Lemma prefix_app (p s : string) : String.prefix p (p ++ s) = true.
Proof.
  induction p as [|c p IH]; simpl.
  - destruct s; reflexivity.
  - rewrite IH. destruct (ascii_dec c c); congruence.
Qed.

Lemma prefix_split (p s : string) :
  String.prefix p s = true -> exists rest, s = p ++ rest.
Proof.
  revert s. induction p as [|c p IH]; intros s H.
  - exists s. reflexivity.
  - destruct s as [|d s]; simpl in H; [discriminate|].
    destruct (ascii_dec c d) as [->|]; [|discriminate].
    destruct (IH s H) as [rest ->]. exists rest. reflexivity.
Qed.

Lemma str_in_nil (needle : string) :
  str_in needle EmptyString = String.prefix needle EmptyString.
Proof. simpl. apply orb_false_r. Qed.

Lemma str_in_cons (needle : string) (c : ascii) (hay : string) :
  str_in needle (String c hay)
  = (String.prefix needle (String c hay) || str_in needle hay)%bool.
Proof. reflexivity. Qed.

(** [needle in hay] holds exactly when [hay] is [needle] between two
    strings. *)
Lemma str_in_iff (needle hay : string) :
  str_in needle hay = true <-> exists pre post, hay = pre ++ needle ++ post.
Proof.
  split.
  - induction hay as [|c hay IH]; intros H.
    + rewrite str_in_nil in H. destruct (prefix_split _ _ H) as [rest E].
      exists EmptyString, rest. exact E.
    + rewrite str_in_cons in H. apply orb_true_iff in H as [H|H].
      * destruct (prefix_split _ _ H) as [rest E].
        exists EmptyString, rest. exact E.
      * destruct (IH H) as (pre & post & ->).
        exists (String c pre), post. reflexivity.
  - intros (pre & post & ->). induction pre as [|c pre IH].
    + change (EmptyString ++ needle ++ post) with (needle ++ post).
      destruct (needle ++ post) as [|c r] eqn:E.
      * rewrite str_in_nil, <- E. apply prefix_app.
      * rewrite str_in_cons, <- E, prefix_app. reflexivity.
    + change (String c pre ++ needle ++ post)
        with (String c (pre ++ needle ++ post)).
      rewrite str_in_cons, IH. apply orb_true_r.
Qed.

Lemma string_app_assoc (a b c : string) : (a ++ b) ++ c = a ++ b ++ c.
Proof. induction a as [|x a IH]; simpl; [reflexivity | now rewrite IH]. Qed.

(** Containment is transitive: a keyword inside a longer phrase is in every
    text that holds the phrase. *)
Lemma str_in_trans (a b t : string) :
  str_in a b = true -> str_in b t = true -> str_in a t = true.
Proof.
  rewrite !str_in_iff. intros (p1 & q1 & ->) (p2 & q2 & ->).
  exists (p2 ++ p1), (q1 ++ q2). now rewrite !string_app_assoc.
Qed.

Lemma str_in_absent (a b t : string) :
  str_in a b = true -> str_in a t = false -> str_in b t = false.
Proof.
  intros Hab Hat. destruct (str_in b t) eqn:E; [|reflexivity].
  rewrite (str_in_trans _ _ _ Hab E) in Hat. discriminate.
Qed.

(** *** [max] returns the first of the greatest items *)

Section Max.
Context {A : Type} (key : A -> Z).

Lemma max_loop_first (l : list A) :
  forall (pre mid : list A) (best : A),
    (forall y, In y pre -> key y < key best) ->
    (forall y, In y mid -> key y <= key best) ->
    exists pre' post',
      (pre ++ best :: mid ++ l)%list = (pre' ++ max_loop key best l :: post')%list
      /\ (forall y, In y pre' -> key y < key (max_loop key best l))
      /\ (forall y, In y post' -> key y <= key (max_loop key best l)).
Proof.
  induction l as [|x l IH]; intros pre mid best Hpre Hmid; simpl.
  - exists pre, mid. rewrite app_nil_r. auto.
  - destruct (Z.gtb_spec (key x) (key best)) as [Hgt|Hle].
    + destruct (IH (pre ++ best :: mid)%list [] x) as (pre' & post' & E & H1 & H2).
      * intros y Hy. apply in_app_or in Hy as [Hy|[<-|Hy]].
        -- specialize (Hpre y Hy). lia.
        -- lia.
        -- specialize (Hmid y Hy). lia.
      * intros y [].
      * exists pre', post'. split; [|auto].
        rewrite <- E. rewrite <- app_assoc. reflexivity.
    + destruct (IH pre (mid ++ [x])%list best) as (pre' & post' & E & H1 & H2).
      * exact Hpre.
      * intros y Hy. apply in_app_or in Hy as [Hy|[<-|[]]]; [auto | lia].
      * exists pre', post'. split; [|auto].
        rewrite <- E. rewrite <- app_assoc. reflexivity.
Qed.

(** [max(l, key=f)] on a sequence that is not empty: the winner splits the
    sequence, everything before it has a strictly smaller key and nothing
    after it has a greater one. *)
Lemma max_by_first (x : A) (l : list A) :
  exists w pre post,
    max_by key (x :: l) = Ok w
    /\ x :: l = (pre ++ w :: post)%list
    /\ (forall y, In y pre -> key y < key w)
    /\ (forall y, In y post -> key y <= key w).
Proof.
  destruct (max_loop_first l [] [] x) as (pre & post & E & H1 & H2).
  - intros y [].
  - intros y [].
  - exists (max_loop key x l), pre, post. simpl in E. auto.
Qed.

Lemma max_by_upper (x : A) (l : list A) (w : A) :
  max_by key (x :: l) = Ok w ->
  In w (x :: l) /\ forall y, In y (x :: l) -> key y <= key w.
Proof.
  intros Hw. destruct (max_by_first x l) as (w' & pre & post & E & S & H1 & H2).
  rewrite E in Hw. injection Hw as ->. rewrite S. split.
  - apply in_or_app. right. left. reflexivity.
  - intros y Hy. apply in_app_or in Hy as [Hy|[<-|Hy]].
    + specialize (H1 y Hy). lia.
    + lia.
    + auto.
Qed.

End Max.

End PyFacts.

(** ** The rule-based classifier *)

Module ClassifierFacts.
Import Py Http EmailClassifier PyFacts.

Lemma bind_Ok {A B : Type} (a : A) (f : A -> result B) :
  bind (Ok a) f = f a.
Proof. reflexivity. Qed.

Lemma keyword_hits_nonneg (keywords : list string) (text : string) :
  0 <= keyword_hits keywords text.
Proof.
  induction keywords as [|k ks IH]; cbn [keyword_hits]; [lia|].
  destruct (str_in k text); lia.
Qed.

Lemma keyword_hits_zero (keywords : list string) (text : string) :
  keyword_hits keywords text = 0
  <-> forall k, In k keywords -> str_in k text = false.
Proof.
  induction keywords as [|k ks IH]; cbn [keyword_hits].
  - split; [intros _ k [] | reflexivity].
  - pose proof (keyword_hits_nonneg ks text) as Hn.
    destruct (str_in k text) eqn:E; split.
    + lia.
    + intros H. rewrite (H k (or_introl eq_refl)) in E. discriminate.
    + intros H j [<-|Hj]; [exact E|]. apply IH; [lia | exact Hj].
    + intros H. assert (keyword_hits ks text = 0) as ->; [|reflexivity].
      apply IH. intros j Hj. apply H. right. exact Hj.
Qed.

Lemma any_keyword_false (keywords : list string) (text : string) :
  any_keyword keywords text = false
  <-> forall k, In k keywords -> str_in k text = false.
Proof.
  induction keywords as [|k ks IH]; cbn [any_keyword].
  - split; [intros _ k [] | reflexivity].
  - destruct (str_in k text) eqn:E; split.
    + discriminate.
    + intros H. rewrite (H k (or_introl eq_refl)) in E. discriminate.
    + intros H j [<-|Hj]; [exact E|]. apply IH; assumption.
    + intros H. apply IH. intros j Hj. apply H. right. exact Hj.
Qed.

Lemma any_keyword_true (keywords : list string) (text k : string) :
  In k keywords -> str_in k text = true -> any_keyword keywords text = true.
Proof.
  intros Hin Hk. destruct (any_keyword keywords text) eqn:E; [reflexivity|].
  rewrite (proj1 (any_keyword_false _ _) E k Hin) in Hk. discriminate.
Qed.

(** The scoring loop leaves one entry per category, in declaration order. *)
Lemma score_all_categories (text : string) :
  score_all categories text
  = map (fun '(c, kws) => (c, keyword_hits kws text)) categories.
Proof. reflexivity. Qed.

Lemma scores_keys (text : string) :
  dict_keys (score_all categories text) = category_names.
Proof. reflexivity. Qed.

Lemma scores_get (text c : string) :
  In c category_names ->
  dict_get (score_all categories text) c 0 = category_score c text.
Proof.
  intros H. repeat (destruct H as [<-|H]; [reflexivity|]). destruct H.
Qed.

Lemma scores_values (text : string) :
  dict_values (score_all categories text)
  = map (fun k => dict_get (score_all categories text) k 0) category_names.
Proof. reflexivity. Qed.

Lemma max_loop_map {A : Type} (key : A -> Z) (l : list A) (x : A) :
  max_loop (fun z => z) (key x) (map key l) = key (max_loop key x l).
Proof.
  revert x. induction l as [|a l IH]; intros x; cbn [map max_loop]; [reflexivity|].
  destruct (key a >? key x); apply IH.
Qed.

Lemma max_of_map {A : Type} (key : A -> Z) (x : A) (l : list A) :
  max_of (map key (x :: l)) = Ok (key (max_loop key x l)).
Proof. unfold max_of. cbn [map max_by]. now rewrite max_loop_map. Qed.

Lemma category_names_eq :
  category_names = ["technical_support"; "billing"; "account"; "integration"; "general"].
Proof. reflexivity. Qed.

(** What [_determine_category] returns, for every subject and body: the
    first category of greatest score when that score is positive, and
    ["general"] when it is not. *)
Lemma determine_category_first (subject body : string) :
  let text := text_of subject body in
  exists w earlier later,
    category_names = (earlier ++ w :: later)%list
    /\ (forall c, In c earlier -> category_score c text < category_score w text)
    /\ (forall c, In c later -> category_score c text <= category_score w text)
    /\ _determine_category subject body
       = Ok (if category_score w text >? 0 then w else "general").
Proof.
  intros text. unfold _determine_category. fold text.
  set (scores := score_all categories text).
  set (key := fun k => dict_get scores k 0).
  destruct (max_by_first key "technical_support"
              ["billing"; "account"; "integration"; "general"])
    as (w & pre & post & Hw & Hsplit & Hpre & Hpost).
  change ("technical_support" :: ["billing"; "account"; "integration"; "general"])
    with category_names in Hw, Hsplit.
  assert (Hin : forall c, In c pre \/ c = w \/ In c post -> In c category_names).
  { intros c H. rewrite Hsplit. apply in_or_app.
    destruct H as [H|[->|H]]; [left | right; left | right; right]; auto. }
  assert (Hkey : forall c, In c category_names -> key c = category_score c text)
    by (intros c Hc; apply scores_get; exact Hc).
  exists w, pre, post. split; [exact Hsplit|]. split; [|split].
  - intros c Hc. rewrite <- !Hkey by auto. auto.
  - intros c Hc. rewrite <- !Hkey by auto. auto.
  - unfold max_key. subst scores. rewrite scores_values, scores_keys. fold key.
    rewrite Hw. rewrite category_names_eq in Hw |- *. rewrite max_of_map.
    cbn [max_by] in Hw. set (m := max_loop key _ _) in *.
    assert (m = w) as -> by (unfold Ok in Hw; congruence).
    rewrite bind_Ok, <- Hkey by auto.
    destruct (key _ >? 0); reflexivity.
Qed.

Lemma determine_category_total (subject body : string) :
  exists c, _determine_category subject body = Ok c /\ In c category_names.
Proof.
  destruct (determine_category_first subject body)
    as (w & pre & post & Hsplit & _ & _ & E).
  rewrite E. destruct (_ >? 0).
  - exists w. split; [reflexivity|]. rewrite Hsplit. apply in_or_app.
    right. left. reflexivity.
  - exists "general". split; [reflexivity|]. rewrite category_names_eq.
    simpl. auto 6.
Qed.

Lemma determine_category_zero (subject body : string) :
  (forall c, In c category_names -> category_score c (text_of subject body) = 0) ->
  _determine_category subject body = Ok "general".
Proof.
  intros Hzero.
  destruct (determine_category_first subject body)
    as (w & pre & post & Hsplit & _ & _ & E).
  rewrite E, Hzero; [reflexivity|].
  rewrite Hsplit. apply in_or_app. right. left. reflexivity.
Qed.

Lemma determine_priority_eq (subject body : string) :
  let text := text_of subject body in
  _determine_priority subject body
  = Ok (if any_keyword high_priority_keywords text then "high"
        else if any_keyword medium_priority_keywords text then "medium"
        else "low").
Proof.
  intros text. unfold _determine_priority. fold text.
  destruct (any_keyword high_priority_keywords text); [reflexivity|].
  destruct (any_keyword medium_priority_keywords text); reflexivity.
Qed.

Lemma determine_priority_total (subject body : string) :
  exists p, _determine_priority subject body = Ok p /\ In p priority_names.
Proof.
  rewrite determine_priority_eq. cbv zeta.
  destruct (any_keyword high_priority_keywords _);
    [|destruct (any_keyword medium_priority_keywords _)];
    eexists; (split; [reflexivity|]); simpl; auto.
Qed.

Lemma generate_reasoning_total (category priority subject body : string) :
  exists r, _generate_reasoning category priority subject body = Ok r.
Proof. eexists. reflexivity. Qed.

(** The rule-based path returns a dictionary for every input. *)
Lemma classify_rule_based_total (sender subject body : string) :
  exists c p r,
    _classify_rule_based sender subject body = Ok (classification c p r)
    /\ _determine_category subject body = Ok c
    /\ _determine_priority subject body = Ok p.
Proof.
  destruct (determine_category_total subject body) as (c & Hc & _).
  destruct (determine_priority_total subject body) as (p & Hp & _).
  destruct (generate_reasoning_total c p subject body) as (r & Hr).
  exists c, p, r. unfold _classify_rule_based.
  rewrite Hc, bind_Ok, Hp, bind_Ok, Hr, bind_Ok. auto.
Qed.

End ClassifierFacts.

Module ClassifierSpec.
Import Py Http EmailClassifier PyFacts ClassifierFacts.

Lemma any_keyword_app (a b : list string) (text : string) :
  any_keyword (a ++ b)%list text
  = (any_keyword a text || any_keyword b text)%bool.
Proof.
  induction a as [|k a IH]; cbn [app any_keyword]; [reflexivity|].
  destruct (str_in k text); [reflexivity | exact IH].
Qed.

Lemma no_category_keyword_scores (text : string) :
  no_category_keyword text ->
  forall c, In c category_names -> category_score c text = 0.
Proof.
  intros H c Hc. apply keyword_hits_zero. intros k Hk.
  rewrite category_names_eq in Hc.
  destruct Hc as [<-|[<-|[<-|[<-|[<-|[]]]]]];
    (eapply H; [|exact Hk]); unfold categories; simpl; auto 6.
Qed.

Lemma absent_keyword (text k : string) :
  no_category_keyword text ->
  existsb (String.eqb k) (flat_map snd categories) = true ->
  str_in k text = false.
Proof.
  intros H Hk. apply existsb_exists in Hk as (k' & Hin & Heq).
  apply String.eqb_eq in Heq as <-.
  apply in_flat_map in Hin as ([c kws] & Hc & Hin). exact (H c kws k Hc Hin).
Qed.

Ltac absent H := apply (absent_keyword _ _ H); vm_compute; reflexivity.

(** C1, as the code decides the scenario: the text holds no keyword of
    [technical_support] (neither "down" nor "urgent" is a category keyword)
    and one keyword of [general] ("help"), so the category is [general];
    the priority is [high]. *)
Theorem servers_down_classification (sender : string) :
  _classify_rule_based sender "Servers are down"
    "Our production servers are down, urgent please help"
  = Ok (classification "general" "high"
          "Classified as general with high priority. Contains urgent/critical keywords.").
Proof. vm_compute. reflexivity. Qed.

(** C1 as stated fails: the category of the scenario is not
    [technical_support]. *)
Lemma servers_down_not_technical_support :
  ~ (_determine_category "Servers are down"
       "Our production servers are down, urgent please help"
     = Ok "technical_support"
     /\ _determine_priority "Servers are down"
          "Our production servers are down, urgent please help"
        = Ok "high").
Proof. intros [H _]. vm_compute in H. discriminate H. Qed.

(** For every sender, subject and body the rule-based classifier returns a
    dictionary whose category is one of the five categories and whose
    priority is one of the three priorities. *)
Lemma classification_vocabulary (sender subject body : string) :
  exists c p r,
    _classify_rule_based sender subject body = Ok (classification c p r)
    /\ In c ["technical_support"; "billing"; "account"; "integration"; "general"]
    /\ In p ["high"; "medium"; "low"].
Proof.
  destruct (classify_rule_based_total sender subject body) as (c & p & r & E & Hc & Hp).
  exists c, p, r. split; [exact E|]. split.
  - destruct (determine_category_total subject body) as (c' & Hc' & Hin).
    rewrite Hc in Hc'. injection Hc' as <-. exact Hin.
  - destruct (determine_priority_total subject body) as (p' & Hp' & Hin).
    rewrite Hp in Hp'. injection Hp' as <-. exact Hin.
Qed.

(** C3: the categories are scored in the declared order technical_support,
    billing, account, integration, general.  When some score is positive,
    [_determine_category] returns the category [w] that splits that order
    into categories of strictly smaller score before it and categories of
    score at most its own after it: the strictly highest score wins, and
    among equal highest scores the earliest declared.  When every score is
    zero the result is [general].  One hit each for "error" and "account"
    gives [technical_support]. *)
Theorem category_selection (subject body : string) :
  let text := text_of subject body in
  category_names
    = ["technical_support"; "billing"; "account"; "integration"; "general"]
  /\ ((exists c, In c category_names /\ category_score c text > 0) ->
      exists w earlier later,
        category_names = (earlier ++ w :: later)%list
        /\ _determine_category subject body = Ok w
        /\ (forall c, In c earlier -> category_score c text < category_score w text)
        /\ (forall c, In c later -> category_score c text <= category_score w text))
  /\ ((forall c, In c category_names -> category_score c text = 0) ->
      _determine_category subject body = Ok "general")
  /\ (forall c, In c category_names ->
      (forall c', In c' category_names -> c' <> c ->
                  category_score c' text < category_score c text) ->
      _determine_category subject body = Ok c)
  /\ _determine_category "error" "account" = Ok "technical_support".
Proof.
  intros text.
  destruct (determine_category_first subject body)
    as (w & pre & post & Hsplit & Hpre & Hpost & E). fold text in Hpre, Hpost, E.
  assert (Hw : In w category_names).
  { rewrite Hsplit. apply in_or_app. right. left. reflexivity. }
  assert (Hmax : forall c, In c category_names ->
                           category_score c text <= category_score w text).
  { intros c Hc. rewrite Hsplit in Hc. apply in_app_or in Hc as [Hc|[<-|Hc]].
    - specialize (Hpre c Hc). lia.
    - lia.
    - auto. }
  split; [reflexivity|]. split; [|split; [|split]].
  - intros (c & Hc & Hpos). exists w, pre, post.
    split; [exact Hsplit|]. split; [|auto].
    rewrite E. specialize (Hmax c Hc).
    destruct (Z.gtb_spec (category_score w text) 0); [reflexivity | lia].
  - apply determine_category_zero.
  - intros c Hc Hstrict. rewrite E.
    destruct (string_dec w c) as [->|Hne].
    + pose proof (keyword_hits_nonneg (dict_get categories c []) text) as Hn.
      fold (category_score c text) in Hn.
      destruct (Z.gtb_spec (category_score c text) 0) as [_|Hle]; [reflexivity|].
      assert (category_score c text = 0) as Hz by lia.
      destruct (string_dec c "general") as [->|Hg]; [reflexivity|].
      assert (In "general" category_names) as Hgen by (simpl; auto 6).
      specialize (Hstrict "general" Hgen (not_eq_sym Hg)).
      pose proof (keyword_hits_nonneg (dict_get categories "general" []) text) as Hn'.
      fold (category_score "general" text) in Hn'. lia.
    + specialize (Hstrict w Hw Hne). specialize (Hmax c Hc). lia.
  - vm_compute. reflexivity.
Qed.

(** C3 run on a tie: "error" and "account" score one each. *)
Lemma category_selection_tie :
  exists w earlier later,
    category_names = (earlier ++ w :: later)%list
    /\ _determine_category "error" "account" = Ok w
    /\ (forall c, In c earlier ->
          category_score c (text_of "error" "account")
          < category_score w (text_of "error" "account"))
    /\ (forall c, In c later ->
          category_score c (text_of "error" "account")
          <= category_score w (text_of "error" "account")).
Proof.
  destruct (category_selection "error" "account") as (_ & H & _).
  apply H. exists "account". split; [simpl; auto | vm_compute; reflexivity].
Defined.

(** C4: when the lowercased text of subject and body contains "urgent",
    the priority is [high], whatever the category turns out to be. *)
Theorem urgent_is_high (sender subject body : string)
    (Hurgent : str_in "urgent" (lower (subject ++ " " ++ body)) = true) :
  _determine_priority subject body = Ok "high"
  /\ exists c r,
       _classify_rule_based sender subject body = Ok (classification c "high" r).
Proof.
  assert (Hp : _determine_priority subject body = Ok "high").
  { rewrite determine_priority_eq. cbv zeta.
    rewrite (any_keyword_true high_priority_keywords _ "urgent");
      [reflexivity | simpl; auto | exact Hurgent]. }
  split; [exact Hp|].
  destruct (classify_rule_based_total sender subject body) as (c & p & r & E & _ & Hp').
  rewrite Hp in Hp'. injection Hp' as <-. exists c, r. exact E.
Qed.

Lemma urgent_is_high_run :
  str_in "urgent" (lower ("URGENT: invoice" ++ " " ++ "Please refund the charge")) = true
  /\ _determine_priority "URGENT: invoice" "Please refund the charge" = Ok "high"
  /\ exists c r,
       _classify_rule_based "a@b.c" "URGENT: invoice" "Please refund the charge"
       = Ok (classification c "high" r).
Proof.
  split; [vm_compute; reflexivity|].
  apply (urgent_is_high "a@b.c" "URGENT: invoice" "Please refund the charge").
  vm_compute. reflexivity.
Defined.

(** C5, as the code behaves: when no category keyword occurs in the text
    the category is [general]; the priority is never [medium], it is
    [high] when one of the triggers urgent, critical, immediate, emergency,
    down, outage occurs and [low] otherwise. *)
Theorem no_keyword_classification (subject body : string)
    (Hnone : no_category_keyword (text_of subject body)) :
  _determine_category subject body = Ok "general"
  /\ _determine_priority subject body
     = Ok (if any_keyword
                ["urgent"; "critical"; "immediate"; "emergency"; "down"; "outage"]
                (text_of subject body)
           then "high" else "low").
Proof.
  set (text := text_of subject body) in *. split.
  - apply determine_category_zero, no_category_keyword_scores. exact Hnone.
  - rewrite determine_priority_eq. cbv zeta. fold text.
    assert (Hmed : any_keyword medium_priority_keywords text = false).
    { apply any_keyword_false. intros k [<-|[<-|[<-|[<-|[<-|[<-|[]]]]]]];
        absent Hnone. }
    rewrite Hmed.
    change high_priority_keywords
      with (["urgent"; "critical"; "immediate"; "emergency"; "down"; "outage"]
            ++ ["cannot access"; "completely inaccessible"; "servers are down"])%list.
    rewrite any_keyword_app.
    destruct (any_keyword ["urgent"; _; _; _; _; _] text) eqn:Esix; [reflexivity|].
    cbn [orb].
    assert (Hrest : any_keyword
              ["cannot access"; "completely inaccessible"; "servers are down"] text
            = false).
    { apply any_keyword_false. intros k [<-|[<-|[<-|[]]]].
      - apply (str_in_absent "cannot"); [reflexivity | absent Hnone].
      - apply (str_in_absent "access"); [reflexivity | absent Hnone].
      - apply (str_in_absent "down"); [reflexivity|].
        apply (proj1 (any_keyword_false _ _) Esix). simpl. auto 6. }
    rewrite Hrest. reflexivity.
Qed.

(** C5 as stated fails: "urgent" is no category keyword, and the priority
    of a text that holds it is [high], not [low]. *)
Lemma no_keyword_not_low :
  no_category_keyword (text_of "urgent" "")
  /\ _determine_category "urgent" "" = Ok "general"
  /\ _determine_priority "urgent" "" = Ok "high"
  /\ _determine_priority "urgent" "" <> Ok "low".
Proof.
  split; [|split; [|split]]; try (vm_compute; reflexivity).
  - intros c kws k Hc Hk. unfold categories in Hc.
    repeat (destruct Hc as [Hc|Hc];
            [ injection Hc as <- <-;
              repeat (destruct Hk as [<-|Hk]; [vm_compute; reflexivity|]);
              destruct Hk |]).
    destruct Hc.
  - vm_compute. discriminate.
Qed.

Lemma no_keyword_classification_run :
  no_category_keyword (text_of "Hello" "Just saying thanks")
  /\ _determine_category "Hello" "Just saying thanks" = Ok "general"
  /\ _determine_priority "Hello" "Just saying thanks" = Ok "low".
Proof.
  assert (H : no_category_keyword (text_of "Hello" "Just saying thanks")).
  { intros c kws k Hc Hk. unfold categories in Hc.
    repeat (destruct Hc as [Hc|Hc];
            [ injection Hc as <- <-;
              repeat (destruct Hk as [<-|Hk]; [vm_compute; reflexivity|]);
              destruct Hk |]).
    destruct Hc. }
  split; [exact H|].
  exact (no_keyword_classification "Hello" "Just saying thanks" H).
Defined.

(** C9: the rule-based classification does not depend on the sender: two
    senders with the same subject and body get the same dictionary
    (category, priority and reasoning). *)
Theorem rule_based_ignores_sender (sender1 sender2 subject body : string) :
  _classify_rule_based sender1 subject body
  = _classify_rule_based sender2 subject body.
Proof. reflexivity. Qed.

End ClassifierSpec.

(** ** The entry points and the model path *)

Module FallbackSpec.
Import Py Http PyFacts ClassifierFacts.

Lemma try_except_Ok {A : Type} (a : A) (handler : exn -> result A) :
  try_except (Ok a) handler = Ok a.
Proof. reflexivity. Qed.

Lemma try_except_Raise {A : Type} (e : exn) (handler : exn -> result A) :
  try_except (Raise e) handler = handler e.
Proof. reflexivity. Qed.

Lemma result_cases {A : Type} (r : result A) :
  (exists a, r = Ok a) \/ (exists e, r = Raise e).
Proof. destruct r as [e|a]; [right | left]; eexists; reflexivity. Qed.

Lemma split_char_nonempty (sep : ascii) (s : string) :
  exists p ps, split_char sep s = p :: ps.
Proof.
  induction s as [|c s (p & ps & IH)]; cbn [split_char].
  - eexists _, _. reflexivity.
  - destruct (Ascii.eqb c sep); [|rewrite IH]; eexists _, _; reflexivity.
Qed.

(** [sender.split('@')[0]] never raises [IndexError]. *)
Lemma sender_name_of_total (sender : string) :
  exists n, ResponseGenerator.sender_name_of sender = Ok n.
Proof.
  unfold ResponseGenerator.sender_name_of.
  destruct (split_char_nonempty "@" sender) as (p & ps & ->).
  eexists. reflexivity.
Qed.

Lemma select_greeting_total (n tone : string) :
  exists g, ResponseGenerator.select_greeting n tone = Ok g.
Proof. eexists. reflexivity. Qed.

Lemma select_content_total (category tone : string) :
  exists c, ResponseGenerator.select_content category tone = Ok c.
Proof. eexists. reflexivity. Qed.

Lemma select_closing_total (tone : string) :
  exists c, ResponseGenerator.select_closing tone = Ok c.
Proof. eexists. reflexivity. Qed.

(** The template builder returns a text for every input, laid out as
    greeting, blank line, body, blank line, courtesy sentence, blank line,
    closing. *)
Lemma template_response_total (sender subject body category tone : string) :
  exists n g c cl,
    ResponseGenerator.sender_name_of sender = Ok n
    /\ ResponseGenerator.select_greeting n tone = Ok g
    /\ ResponseGenerator.select_content category tone = Ok c
    /\ ResponseGenerator.select_closing tone = Ok cl
    /\ ResponseGenerator._generate_template_response sender subject body category tone
       = Ok (g ++ nl ++ nl ++ c ++ nl ++ nl ++ ResponseGenerator.courtesy
             ++ nl ++ nl ++ cl).
Proof.
  destruct (sender_name_of_total sender) as (n & Hn).
  destruct (select_greeting_total n tone) as (g & Hg).
  destruct (select_content_total category tone) as (c & Hc).
  destruct (select_closing_total tone) as (cl & Hcl).
  exists n, g, c, cl. repeat (split; [assumption|]).
  unfold ResponseGenerator._generate_template_response.
  rewrite Hn, bind_Ok, Hg, bind_Ok, Hc, bind_Ok, Hcl, bind_Ok. reflexivity.
Qed.

(** The model path signals a failure when the endpoint cannot be reached
    and when the status is not 200. *)
Lemma classify_with_llama_unreachable (self : EmailClassifier.t) (w : world)
    (sender subject body message : string) :
  post w (EmailClassifier.classify_request self sender subject body)
  = Fails message ->
  EmailClassifier._classify_with_llama self w sender subject body
  = Raise (Exception ("Failed to connect to Ollama: " ++ message)).
Proof.
  intros H. unfold EmailClassifier._classify_with_llama, requests_post.
  rewrite H. reflexivity.
Qed.

Lemma classify_with_llama_bad_status (self : EmailClassifier.t) (w : world)
    (sender subject body : string) (status_code : Z) (text : string) :
  post w (EmailClassifier.classify_request self sender subject body)
  = Responds status_code text ->
  status_code <> 200 ->
  EmailClassifier._classify_with_llama self w sender subject body
  = Raise (Exception "Invalid response from Llama API").
Proof.
  intros H Hs. unfold EmailClassifier._classify_with_llama, requests_post.
  rewrite H. cbv zeta. rewrite bind_Ok.
  destruct (Z.eqb_spec status_code 200) as [|_]; [contradiction | reflexivity].
Qed.

(** C6: both entry points try the model first and keep its result when it
    returns one; whenever the model path raises, the entry point returns
    what the deterministic path returns.  The deterministic paths return a
    value for every input, so both entry points always return a value and
    never raise. *)
Theorem fallback_policy (ec : EmailClassifier.t) (rg : ResponseGenerator.t)
    (w : world) (sender subject body category tone : string) :
  (exists d, EmailClassifier._classify_rule_based sender subject body = Ok d)
  /\ (exists s, ResponseGenerator._generate_template_response
                  sender subject body category tone = Ok s)
  /\ (forall d, EmailClassifier._classify_with_llama ec w sender subject body = Ok d ->
        EmailClassifier.classify_email ec w sender subject body = Ok d)
  /\ (forall e, EmailClassifier._classify_with_llama ec w sender subject body = Raise e ->
        EmailClassifier.classify_email ec w sender subject body
        = EmailClassifier._classify_rule_based sender subject body)
  /\ (forall s, ResponseGenerator._generate_with_llama rg w sender subject body
                  category tone = Ok s ->
        ResponseGenerator.generate_response rg w sender subject body category tone
        = Ok s)
  /\ (forall e, ResponseGenerator._generate_with_llama rg w sender subject body
                  category tone = Raise e ->
        ResponseGenerator.generate_response rg w sender subject body category tone
        = ResponseGenerator._generate_template_response
            sender subject body category tone)
  /\ (exists d, EmailClassifier.classify_email ec w sender subject body = Ok d)
  /\ (exists s, ResponseGenerator.generate_response rg w sender subject body
                  category tone = Ok s).
Proof.
  assert (Hrule : exists d,
             EmailClassifier._classify_rule_based sender subject body = Ok d).
  { destruct (classify_rule_based_total sender subject body) as (c & p & r & E & _).
    eexists. exact E. }
  assert (Htpl : exists s, ResponseGenerator._generate_template_response
                             sender subject body category tone = Ok s).
  { destruct (template_response_total sender subject body category tone)
      as (n & g & c & cl & _ & _ & _ & _ & E).
    eexists. exact E. }
  split; [exact Hrule|]. split; [exact Htpl|].
  unfold EmailClassifier.classify_email, ResponseGenerator.generate_response.
  split; [|split; [|split; [|split; [|split]]]].
  - intros d ->. apply try_except_Ok.
  - intros e ->. now rewrite try_except_Raise.
  - intros s ->. apply try_except_Ok.
  - intros e ->. now rewrite try_except_Raise.
  - destruct (result_cases (EmailClassifier._classify_with_llama ec w sender subject body))
      as [(d & ->)|(e & ->)].
    + exists d. apply try_except_Ok.
    + rewrite try_except_Raise. exact Hrule.
  - destruct (result_cases
                (ResponseGenerator._generate_with_llama rg w sender subject body
                   category tone)) as [(s & ->)|(e & ->)].
    + exists s. apply try_except_Ok.
    + rewrite try_except_Raise. exact Htpl.
Qed.

(** C6 run without an endpoint, on empty strings: the model path raises and
    the entry point returns the rule-based dictionary. *)
Lemma fallback_policy_offline :
  EmailClassifier.classify_email EmailClassifier.default offline "" "" ""
  = EmailClassifier._classify_rule_based "" "" ""
  /\ EmailClassifier._classify_rule_based "" "" ""
     = Ok (EmailClassifier.classification "general" "low"
             "Classified as general with low priority. General inquiry based on content analysis.").
Proof.
  split; [|vm_compute; reflexivity].
  destruct (fallback_policy EmailClassifier.default ResponseGenerator.default
              offline "" "" "" "" "") as (_ & _ & _ & H & _).
  apply (H (Exception "Failed to connect to Ollama: Connection refused")).
  vm_compute. reflexivity.
Defined.

(** C10: when the endpoint answers 200 and the text under ["response"]
    holds, from its first opening brace through its last closing brace, a
    JSON object with the three keys, the entry point returns that object as
    decoded; nothing compares its values with the category and priority
    names. *)
Theorem model_classification_verbatim (self : EmailClassifier.t) (w : world)
    (sender subject body text response_text : string) (result parsed : dict pyval)
    (Hpost : post w (EmailClassifier.classify_request self sender subject body)
             = Responds 200 text)
    (Hjson : json_loads w text = Some (PDict result))
    (Htext : dict_get result "response" (PStr "") = PStr response_text)
    (Hstart : find_char "{" response_text <> -1)
    (Hend : rfind_char "}" response_text + 1 > find_char "{" response_text)
    (Hloads : json_loads w
                (slice response_text (find_char "{" response_text)
                   (rfind_char "}" response_text + 1))
              = Some (PDict parsed))
    (Hcategory : dict_mem parsed "category" = true)
    (Hpriority : dict_mem parsed "priority" = true)
    (Hreasoning : dict_mem parsed "reasoning" = true) :
  EmailClassifier._classify_with_llama self w sender subject body = Ok (PDict parsed)
  /\ EmailClassifier.classify_email self w sender subject body = Ok (PDict parsed).
Proof.
  assert (E : EmailClassifier._classify_with_llama self w sender subject body
              = Ok (PDict parsed)).
  { unfold EmailClassifier._classify_with_llama, requests_post.
    rewrite Hpost. cbv zeta. rewrite bind_Ok. cbn [Z.eqb Pos.eqb].
    unfold EmailClassifier.extract_classification, response_json.
    rewrite Hjson, bind_Ok. unfold py_get. rewrite Htext, bind_Ok.
    unfold py_find, py_rfind. rewrite !bind_Ok. cbv zeta.
    destruct (Z.eqb_spec (find_char "{" response_text) (-1)) as [|_];
      [contradiction|].
    destruct (Z.gtb_spec (rfind_char "}" response_text + 1)
                (find_char "{" response_text)) as [_|]; [|lia].
    cbn [negb andb]. unfold py_slice. rewrite bind_Ok. unfold loads.
    rewrite Hloads, bind_Ok.
    unfold all_keys_in, py_contains.
    rewrite Hcategory, bind_Ok, Hpriority, bind_Ok, Hreasoning, bind_Ok.
    reflexivity. }
  split; [exact E|]. unfold EmailClassifier.classify_email. rewrite E.
  apply try_except_Ok.
Qed.

(** C10 run on the scripted answer: the dictionary comes back with the
    category "spam" and the priority "whenever". *)
Lemma model_classification_verbatim_run :
  EmailClassifier.classify_email EmailClassifier.default Scenario.answering
    "jane.doe@example.com" "Offer" "Buy now"
  = Ok (PDict [ ("category", PStr "spam");
                ("priority", PStr "whenever");
                ("reasoning", PStr "looks like an advert") ]).
Proof.
  refine (proj2 (model_classification_verbatim EmailClassifier.default
                   Scenario.answering "jane.doe@example.com" "Offer" "Buy now"
                   Scenario.http_text Scenario.response_text
                   [("response", PStr Scenario.response_text); ("done", PBool true)]
                   Scenario.parsed _ _ _ _ _ _ _ _ _));
    try (vm_compute; reflexivity).
  - vm_compute. discriminate.
Defined.

End FallbackSpec.

(** ** The template response builder *)

Module TemplateSpec.
Import Py Http PyFacts ClassifierFacts ResponseGenerator.

Lemma dict_lookup_absent {V : Type} (d : dict V) (k : string) :
  ~ In k (dict_keys d) -> dict_lookup d k = None.
Proof.
  induction d as [|[k' v] d IH]; intros H; cbn [dict_lookup]; [reflexivity|].
  destruct (String.eqb_spec k' k) as [->|_].
  - exfalso. apply H. left. reflexivity.
  - apply IH. intros Hin. apply H. right. exact Hin.
Qed.

Lemma dict_get_absent {V : Type} (d : dict V) (k : string) (default : V) :
  ~ In k (dict_keys d) -> dict_get d k default = default.
Proof. intros H. unfold dict_get. now rewrite dict_lookup_absent. Qed.

Lemma find_char_lower_bound (c : ascii) (s : string) : -1 <= find_char c s.
Proof.
  induction s as [|d s IH]; cbn [find_char]; [lia|].
  destruct (Ascii.eqb d c); [lia|].
  destruct (Z.eqb_spec (find_char c s) (-1)); lia.
Qed.

Lemma find_char_absent_cons (c d : ascii) (s : string) :
  find_char c (String d s) = -1 ->
  Ascii.eqb d c = false /\ find_char c s = -1.
Proof.
  cbn [find_char]. pose proof (find_char_lower_bound c s).
  destruct (Ascii.eqb d c); [discriminate|].
  destruct (Z.eqb_spec (find_char c s) (-1)); [auto | lia].
Qed.

(** [split] cuts at the first separator: a piece without the separator,
    followed by the separator, is the first item of the result. *)
Lemma split_char_first (sep : ascii) (a b : string) :
  find_char sep a = -1 ->
  split_char sep (a ++ String sep b) = a :: split_char sep b.
Proof.
  induction a as [|c a IH]; intros H.
  - cbn [append split_char]. now rewrite Ascii.eqb_refl.
  - apply find_char_absent_cons in H as [Hc Ha].
    change (String c a ++ String sep b) with (String c (a ++ String sep b)).
    cbn [split_char]. rewrite Hc, (IH Ha). reflexivity.
Qed.

Lemma split_char_whole (sep : ascii) (a : string) :
  find_char sep a = -1 -> split_char sep a = [a].
Proof.
  induction a as [|c a IH]; intros H; [reflexivity|].
  apply find_char_absent_cons in H as [Hc Ha].
  cbn [split_char]. rewrite Hc, (IH Ha). reflexivity.
Qed.

Lemma lower_not_upper (c : ascii) : is_lower c = true -> is_upper c = false.
Proof.
  unfold is_lower, is_upper. cbv zeta.
  destruct (Nat.leb_spec 97 (nat_of_ascii c)); [|discriminate].
  destruct (Nat.leb_spec (nat_of_ascii c) 90); [|now rewrite andb_false_r].
  lia.
Qed.

(** A character that is no letter ends a word: the text after it is titled
    on its own. *)
Lemma title_from_break (prev : bool) (a : string) (c : ascii) (b : string) :
  is_letter c = false ->
  title_from prev (a ++ String c b) = title_from prev a ++ String c (title b).
Proof.
  intros Hc. apply orb_false_iff in Hc as [Hl Hu].
  revert prev. induction a as [|x a IH]; intros prev.
  - cbn [append title_from]. rewrite Hl, Hu. reflexivity.
  - change (String x a ++ String c b) with (String x (a ++ String c b)).
    cbn [title_from].
    destruct (is_lower x); [|destruct (is_upper x)]; rewrite IH; reflexivity.
Qed.

(** Inside a word every letter is lowered. *)
Lemma title_from_inside (w : string) :
  forallb is_letter (list_ascii_of_string w) = true ->
  title_from true w = lower w.
Proof.
  induction w as [|c w IH]; intros H; [reflexivity|].
  cbn [list_ascii_of_string forallb] in H. apply andb_true_iff in H as [Hc Hw].
  cbn [title_from lower]. unfold to_lower.
  destruct (is_lower c) eqn:El.
  - rewrite (lower_not_upper c El), (IH Hw). reflexivity.
  - unfold is_letter in Hc. rewrite El in Hc. cbn [orb] in Hc.
    rewrite Hc, (IH Hw). reflexivity.
Qed.

(** The name as [sender_name_of] computes it: the title-cased text before
    the first '@', with every '.' turned into a space; without '@' the
    whole sender is used.  [title] treats the words on the two sides of a
    space separately, and turns a word made of letters into its first
    letter in upper case followed by the rest in lower case. *)
Lemma sender_name_derivation :
  (forall local rest,
      find_char "@" local = -1 ->
      sender_name_of (local ++ "@" ++ rest)
      = Ok (title (replace_char "." " " local)))
  /\ (forall sender,
         find_char "@" sender = -1 ->
         sender_name_of sender = Ok (title (replace_char "." " " sender)))
  /\ (forall a b, replace_char "." " " (a ++ "." ++ b)
                  = replace_char "." " " a ++ " " ++ replace_char "." " " b)
  /\ (forall a b, title (a ++ " " ++ b) = title a ++ " " ++ title b)
  /\ (forall c w, forallb is_letter (list_ascii_of_string (String c w)) = true ->
                  title (String c w) = String (to_upper c) (lower w))
  /\ sender_name_of "jane.doe@example.com" = Ok "Jane Doe"
  /\ sender_name_of "nouser" = Ok "Nouser".
Proof.
  split; [|split; [|split; [|split; [|split; [|split]]]]].
  - intros local rest H. unfold sender_name_of.
    change ("@" ++ rest) with (String "@" rest).
    rewrite (split_char_first "@" local rest H). reflexivity.
  - intros sender H. unfold sender_name_of.
    rewrite (split_char_whole "@" sender H). reflexivity.
  - intros a b. induction a as [|c a IH]; [reflexivity|].
    change (String c a ++ "." ++ b) with (String c (a ++ "." ++ b)).
    cbn [replace_char]. rewrite IH. reflexivity.
  - intros a b. unfold title. change (" " ++ b) with (String " " b).
    rewrite title_from_break by reflexivity. reflexivity.
  - intros c w H. cbn [list_ascii_of_string forallb] in H.
    apply andb_true_iff in H as [Hc Hw]. unfold title. cbn [title_from].
    rewrite (title_from_inside w Hw). unfold to_upper.
    destruct (is_lower c) eqn:El; [reflexivity|].
    unfold is_letter in Hc. rewrite El in Hc. cbn [orb] in Hc. rewrite Hc.
    reflexivity.
  - vm_compute. reflexivity.
  - vm_compute. reflexivity.
Qed.

(** A sender with two dots before the '@' and a second '@'. *)
Lemma sender_name_derivation_run :
  sender_name_of ("mary.ann.LEE" ++ "@" ++ "mail@example.com")
  = Ok "Mary Ann Lee".
Proof.
  destruct sender_name_derivation as (H & _). rewrite H.
  - vm_compute. reflexivity.
  - vm_compute. reflexivity.
Defined.

Lemma select_greeting_eq (sender_name tone : string) :
  select_greeting sender_name tone
  = Ok (dict_get (greetings sender_name) tone ("Dear " ++ sender_name ++ ",")).
Proof. reflexivity. Qed.

Lemma select_closing_eq (tone : string) :
  select_closing tone
  = Ok (dict_get closings tone ("Best regards," ++ nl ++ "Customer Support Team")).
Proof. reflexivity. Qed.

Lemma select_content_eq :
  exists general fallback,
    dict_item templates "general" = Ok general
    /\ dict_item general "professional" = Ok fallback
    /\ forall category tone,
         select_content category tone
         = Ok (dict_get (dict_get templates category general) tone fallback).
Proof. eexists _, _. repeat split; reflexivity. Qed.

Ltac by_cases H :=
  repeat (destruct H as [<-|H]; [reflexivity|]); destruct H.

(** The three selections: greeting and closing are taken by tone, and the
    entry of "professional" is used for a tone outside the four; the body
    is taken by category and tone, an unknown category is read as
    "general", and a tone that the category's table does not hold gives the
    body of (general, professional).  Every category's table holds the four
    tones. *)
Lemma template_selection (sender_name category tone : string) :
  (In tone tone_names ->
     select_greeting sender_name tone = dict_item (greetings sender_name) tone
     /\ select_closing tone = dict_item closings tone)
  /\ (~ In tone tone_names ->
     select_greeting sender_name tone
     = dict_item (greetings sender_name) "professional"
     /\ select_closing tone = dict_item closings "professional")
  /\ (In category (dict_keys templates) -> In tone tone_names ->
     select_content category tone
     = (by_tone <- dict_item templates category ;; dict_item by_tone tone))
  /\ (~ In category (dict_keys templates) ->
     select_content category tone = select_content "general" tone)
  /\ (~ In tone tone_names ->
     select_content category tone
     = (general <- dict_item templates "general" ;; dict_item general "professional"))
  /\ (forall c by_tone, In (c, by_tone) templates -> dict_keys by_tone = tone_names)
  /\ dict_keys templates
     = ["technical_support"; "billing"; "account"; "integration"; "general"]
  /\ exists g c cl,
       select_greeting sender_name tone = Ok g
       /\ select_content category tone = Ok c
       /\ select_closing tone = Ok cl.
Proof.
  split; [|split; [|split; [|split; [|split; [|split; [|split]]]]]].
  - intros H. unfold tone_names in H. split; by_cases H.
  - intros H. rewrite select_greeting_eq, select_closing_eq.
    rewrite !dict_get_absent by exact H. split; reflexivity.
  - intros Hc Ht. unfold tone_names in Ht.
    change (dict_keys templates)
      with ["technical_support"; "billing"; "account"; "integration"; "general"] in Hc.
    destruct Hc as [<-|[<-|[<-|[<-|[<-|[]]]]]]; by_cases Ht.
  - intros H. destruct select_content_eq as (general & fallback & Eg & _ & E).
    rewrite !E, (dict_get_absent templates category) by exact H.
    assert (dict_get templates "general" general = general) as ->; [|reflexivity].
    unfold dict_get. unfold dict_item in Eg.
    destruct (dict_lookup templates "general"); [|reflexivity].
    unfold Ok in Eg. congruence.
  - intros H. destruct select_content_eq as (general & fallback & Eg & Ef & E).
    rewrite E, Eg, bind_Ok, Ef. f_equal. apply dict_get_absent.
    unfold dict_get. destruct (dict_lookup templates category) as [by_tone|] eqn:L.
    + assert (Hk : dict_keys by_tone = tone_names); [|rewrite Hk; exact H].
      unfold templates in L. cbn [dict_lookup] in L.
      repeat (match type of L with
              | (if ?b then _ else _) = _ =>
                  destruct b; [injection L as <-; reflexivity|]
              end).
      discriminate L.
    + vm_compute in Eg. injection Eg as <-. exact H.
  - intros c by_tone H. unfold templates in H.
    repeat (destruct H as [H|H]; [injection H as <- <-; reflexivity|]).
    destruct H.
  - reflexivity.
  - destruct (FallbackSpec.select_greeting_total sender_name tone) as (g & Hg).
    destruct (FallbackSpec.select_content_total category tone) as (c & Hc).
    destruct (FallbackSpec.select_closing_total tone) as (cl & Hcl).
    exists g, c, cl. auto.
Qed.

(** The selections on a tone and a category that the tables do not hold. *)
Lemma template_selection_run :
  select_greeting "Jane Doe" "sarcastic" = Ok "Dear Jane Doe,"
  /\ select_closing "sarcastic" = Ok ("Best regards," ++ nl ++ "Customer Support Team")
  /\ select_content "legal" "casual"
     = Ok "Hey! Thanks for reaching out. I'll make sure you get the info you need."
  /\ select_content "billing" "sarcastic"
     = Ok "Thank you for reaching out to us. I have received your inquiry and will ensure you receive the appropriate assistance. Our team will respond with detailed information within 24 hours.".
Proof.
  destruct (template_selection "Jane Doe" "legal" "casual") as (_ & _ & _ & Hcat & _).
  destruct (template_selection "Jane Doe" "billing" "sarcastic")
    as (_ & Htone & _ & _ & Hbody & _).
  assert (Hs : ~ In "sarcastic" tone_names).
  { intros H. unfold tone_names in H.
    repeat (destruct H as [H|H]; [discriminate H|]). destruct H. }
  assert (Hl : ~ In "legal" (dict_keys templates)).
  { intros H. vm_compute in H.
    repeat (destruct H as [H|H]; [discriminate H|]). destruct H. }
  destruct (Htone Hs) as [-> ->]. rewrite (Hcat Hl), (Hbody Hs).
  repeat split; vm_compute; reflexivity.
Defined.

End TemplateSpec.

(** ** Further properties of the rule-based classifier *)

Module ClassifierExtras.
Import Py Http EmailClassifier PyFacts ClassifierFacts Measures.

Lemma lower_app (a b : string) : lower (a ++ b) = lower a ++ lower b.
Proof. induction a as [|c a IH]; simpl; [reflexivity | now rewrite IH]. Qed.

Lemma text_of_lower (subject subject' body body' : string) :
  lower subject = lower subject' -> lower body = lower body' ->
  text_of subject body = text_of subject' body'.
Proof.
  intros Hs Hb. unfold text_of. rewrite !lower_app, Hs, Hb. reflexivity.
Qed.

Lemma text_of_app (subject body extra : string) :
  text_of subject (body ++ extra) = text_of subject body ++ lower extra.
Proof.
  unfold text_of. rewrite <- lower_app, !string_app_assoc. reflexivity.
Qed.

Lemma str_in_app_l (k t e : string) :
  str_in k t = true -> str_in k (t ++ e) = true.
Proof.
  rewrite !str_in_iff. intros (pre & post & ->). exists pre, (post ++ e).
  now rewrite !string_app_assoc.
Qed.

Section Monotone.
Variables t t' : string.
Hypothesis grows : forall k, str_in k t = true -> str_in k t' = true.

Lemma keyword_hits_mono (keywords : list string) :
  keyword_hits keywords t <= keyword_hits keywords t'.
Proof using grows.
  induction keywords as [|k ks IH]; cbn [keyword_hits]; [lia|].
  pose proof (grows k) as Hk.
  destruct (str_in k t), (str_in k t'); try lia.
Qed.

Lemma any_keyword_mono (keywords : list string) :
  any_keyword keywords t = true -> any_keyword keywords t' = true.
Proof using grows.
  induction keywords as [|k ks IH]; cbn [any_keyword]; [discriminate|].
  specialize (grows k). destruct (str_in k t).
  - now rewrite (grows eq_refl).
  - intros H. rewrite (IH H). now destruct (str_in k t').
Qed.

End Monotone.

Lemma keyword_hits_upper (keywords : list string) (text : string) :
  keyword_hits keywords text <= Z.of_nat (length keywords).
Proof.
  induction keywords as [|k ks IH]; cbn [keyword_hits length]; [lia|].
  destruct (str_in k text); lia.
Qed.

Lemma keyword_hits_one (keywords : list string) (text k : string) :
  In k keywords -> str_in k text = true -> 1 <= keyword_hits keywords text.
Proof.
  intros Hin Hk. pose proof (keyword_hits_nonneg keywords text) as Hn.
  destruct (Z.eq_dec (keyword_hits keywords text) 0) as [E|]; [|lia].
  rewrite (proj1 (keyword_hits_zero _ _) E k Hin) in Hk. discriminate.
Qed.

Lemma keyword_hits_two (keywords : list string) (text k1 k2 : string) :
  k1 <> k2 -> In k1 keywords -> In k2 keywords ->
  str_in k1 text = true -> str_in k2 text = true ->
  2 <= keyword_hits keywords text.
Proof.
  intros Hne. induction keywords as [|k ks IH]; intros H1 H2 E1 E2; [destruct H1|].
  cbn [keyword_hits]. pose proof (keyword_hits_nonneg ks text) as Hn.
  destruct H1 as [->|H1], H2 as [->|H2].
  - contradiction.
  - rewrite E1. pose proof (keyword_hits_one ks text k2 H2 E2). lia.
  - rewrite E2. pose proof (keyword_hits_one ks text k1 H1 E1). lia.
  - specialize (IH H1 H2 E1 E2). destruct (str_in k text); lia.
Qed.

(** X1: matching ignores letter case.  Two emails whose subjects and whose
    bodies are equal once lowered get the same rule-based dictionary,
    whatever their senders. *)
Theorem classification_ignores_case
    (sender sender' subject subject' body body' : string)
    (Hsubject : lower subject = lower subject')
    (Hbody : lower body = lower body') :
  _classify_rule_based sender subject body
  = _classify_rule_based sender' subject' body'.
Proof.
  pose proof (text_of_lower _ _ _ _ Hsubject Hbody) as Ht.
  unfold _classify_rule_based, _determine_category, _determine_priority,
    _generate_reasoning.
  rewrite Ht. reflexivity.
Qed.

Lemma classification_ignores_case_run :
  _classify_rule_based "a@b.c" "LOGIN Problem" "Cannot Access my ACCOUNT"
  = _classify_rule_based "x@y.z" "login problem" "cannot access my account".
Proof.
  apply classification_ignores_case; vm_compute; reflexivity.
Defined.

(** X2: text added at the end of the body never lowers a category's score
    and never lowers the priority. *)
Theorem appended_text_never_lowers (subject body extra : string) :
  (forall c, category_score c (text_of subject body)
             <= category_score c (text_of subject (body ++ extra)))
  /\ exists p p',
       _determine_priority subject body = Ok p
       /\ _determine_priority subject (body ++ extra) = Ok p'
       /\ priority_rank p <= priority_rank p'.
Proof.
  assert (Hgrow : forall k, str_in k (text_of subject body) = true ->
                            str_in k (text_of subject (body ++ extra)) = true).
  { intros k Hk. rewrite text_of_app. apply str_in_app_l. exact Hk. }
  split.
  - intros c. apply keyword_hits_mono. exact Hgrow.
  - rewrite !determine_priority_eq. cbv zeta.
    pose proof (any_keyword_mono _ _ Hgrow high_priority_keywords) as Hh.
    pose proof (any_keyword_mono _ _ Hgrow medium_priority_keywords) as Hm.
    destruct (any_keyword high_priority_keywords (text_of subject body)).
    + rewrite (Hh eq_refl). eexists _, _. repeat split. vm_compute. discriminate.
    + destruct (any_keyword high_priority_keywords (text_of subject (body ++ extra))).
      * destruct (any_keyword medium_priority_keywords (text_of subject body));
          eexists _, _; repeat split; vm_compute; discriminate.
      * destruct (any_keyword medium_priority_keywords (text_of subject body)).
        -- rewrite (Hm eq_refl). eexists _, _. repeat split. vm_compute. discriminate.
        -- destruct (any_keyword medium_priority_keywords
                       (text_of subject (body ++ extra)));
             eexists _, _; repeat split; vm_compute; discriminate.
Qed.

(** X3: a keyword counts once however often it occurs: the score of a
    category lies between zero and the number of its keywords, so no score
    exceeds 13. *)
Theorem score_bounds (category text : string) :
  0 <= category_score category text
       <= Z.of_nat (length (dict_get categories category []))
  /\ category_score category text <= 13.
Proof.
  unfold category_score.
  pose proof (keyword_hits_nonneg (dict_get categories category []) text) as Hlo.
  pose proof (keyword_hits_upper (dict_get categories category []) text) as Hhi.
  split; [lia|].
  assert (Z.of_nat (length (dict_get categories category [])) <= 13); [|lia].
  unfold dict_get, categories. cbn [dict_lookup].
  repeat (match goal with
          | |- context [if ?b then _ else _] => destruct b; [cbn; lia|]
          end).
  cbn. lia.
Qed.

(** X4: keywords that contain one another are counted separately.  A text
    with "charged" scores at least 2 for billing ("charge" and "charged");
    a text with "cannot access" scores at least 2 for technical_support
    ("cannot" and "access") and has priority [high]. *)
Theorem overlapping_keywords (subject body : string) :
  (str_in "charged" (text_of subject body) = true ->
     2 <= category_score "billing" (text_of subject body))
  /\ (str_in "cannot access" (text_of subject body) = true ->
     2 <= category_score "technical_support" (text_of subject body)
     /\ _determine_priority subject body = Ok "high").
Proof.
  split.
  - intros H. apply (keyword_hits_two _ _ "charge" "charged").
    + discriminate.
    + simpl. auto 10.
    + simpl. auto 10.
    + apply (str_in_trans "charge" "charged"); [reflexivity | exact H].
    + exact H.
  - intros H. split.
    + apply (keyword_hits_two _ _ "cannot" "access").
      * discriminate.
      * simpl. auto 20.
      * simpl. auto 20.
      * apply (str_in_trans "cannot" "cannot access"); [reflexivity | exact H].
      * apply (str_in_trans "access" "cannot access"); [reflexivity | exact H].
    + rewrite determine_priority_eq. cbv zeta.
      rewrite (any_keyword_true high_priority_keywords _ "cannot access");
        [reflexivity | simpl; auto 10 | exact H].
Qed.

Lemma overlapping_keywords_run :
  2 <= category_score "billing" (text_of "Invoice" "I was CHARGED twice")
  /\ 2 <= category_score "technical_support" (text_of "Portal" "I cannot access it")
  /\ _determine_priority "Portal" "I cannot access it" = Ok "high".
Proof.
  split.
  - apply (proj1 (overlapping_keywords "Invoice" "I was CHARGED twice")).
    vm_compute. reflexivity.
  - apply (proj2 (overlapping_keywords "Portal" "I cannot access it")).
    vm_compute. reflexivity.
Defined.

(** X5: subject and body are matched as one text with a single space
    between them, so a keyword of two words is found across the boundary:
    a subject that ends in "cannot" with a body that starts with "access"
    has priority [high], and one that ends in "not" with a body that starts
    with "working" scores for technical_support. *)
Theorem keyword_across_boundary (subject body : string) :
  _determine_priority (subject ++ "cannot") ("access" ++ body) = Ok "high"
  /\ 1 <= category_score "technical_support"
            (text_of (subject ++ "not") ("working" ++ body)).
Proof.
  split.
  - rewrite determine_priority_eq. cbv zeta.
    rewrite (any_keyword_true high_priority_keywords _ "cannot access");
      [reflexivity | simpl; auto 10 |].
    apply str_in_iff. exists (lower subject), (lower body).
    unfold text_of. rewrite !string_app_assoc, !lower_app. reflexivity.
  - apply (keyword_hits_one _ _ "not working"); [simpl; auto 10|].
    apply str_in_iff. exists (lower subject), (lower body).
    unfold text_of. rewrite !string_app_assoc, !lower_app. reflexivity.
Qed.

End ClassifierExtras.

(** ** The reasoning text and the two ends of the category order *)

Module ReasoningExtras.
Import Py Http EmailClassifier PyFacts ClassifierFacts Measures.

Ltac in_cases :=
  cbn [In list_append app]; intuition (try discriminate; try congruence).

(** X6: the reasoning of the rule-based dictionary opens with the category
    and the priority of the same dictionary and then lists at least one
    clause.  The clause on urgent keywords is there exactly at priority
    [high], the one on support keywords exactly at [medium]; the clause
    "General inquiry based on content analysis" only ever stands alone, at
    priority [low]; and "login", a keyword of technical_support, brings
    the clause on account-related terms. *)
Theorem reasoning_shape (sender subject body : string) :
  exists c p parts,
    _classify_rule_based sender subject body
    = Ok (classification c p
            ("Classified as " ++ c ++ " with " ++ p ++ " priority. "
             ++ join "; " parts ++ "."))
    /\ parts <> []
    /\ (p = "high" <-> In "Contains urgent/critical keywords" parts)
    /\ (p = "medium" <-> In "Contains support-related keywords" parts)
    /\ (In "General inquiry based on content analysis" parts ->
        parts = ["General inquiry based on content analysis"] /\ p = "low")
    /\ (str_in "login" (text_of subject body) = true ->
        In "Contains account-related terms" parts).
Proof.
  destruct (determine_category_total subject body) as (c & Hc & _).
  destruct (determine_priority_total subject body) as (p & Hp & Hin).
  exists c, p. eexists. split.
  - unfold _classify_rule_based. rewrite Hc, bind_Ok, Hp, bind_Ok.
    unfold _generate_reasoning. cbv zeta. rewrite bind_Ok. reflexivity.
  - set (text := text_of subject body).
    set (b1 := (str_in "error" text || str_in "issue" text || str_in "problem" text)%bool).
    set (b2 := (str_in "billing" text || str_in "charge" text || str_in "payment" text)%bool).
    set (b4 := (str_in "api" text || str_in "integration" text)%bool).
    destruct (str_in "login" text) eqn:Elogin.
    + rewrite !orb_true_r.
      destruct Hin as [<-|[<-|[<-|[]]]]; destruct b1, b2, b4;
        cbn [String.eqb Ascii.eqb Bool.eqb]; in_cases.
    + set (b3 := (str_in "account" text || str_in "verification" text || false)%bool).
      destruct Hin as [<-|[<-|[<-|[]]]]; destruct b1, b2, b3, b4;
        cbn [String.eqb Ascii.eqb Bool.eqb]; in_cases.
Qed.

Lemma names_split_last (pre post : list string) (w : string) :
  category_names = (pre ++ w :: post)%list ->
  w = "general" ->
  pre = ["technical_support"; "billing"; "account"; "integration"].
Proof.
  rewrite category_names_eq. intros H ->.
  repeat (destruct pre as [|? pre];
          [cbn in H; first [discriminate H | injection H; intros; subst; reflexivity]
          | cbn in H; injection H as <- H ]).
  destruct pre; discriminate H.
Qed.

(** X7: the two ends of the declared order.  [technical_support], declared
    first, is returned exactly when its score is positive and no category
    scores more; [general], declared last, is returned exactly when every
    score is zero or its score is strictly above the other four. *)
Theorem first_and_last_category (subject body : string) :
  let text := text_of subject body in
  (_determine_category subject body = Ok "technical_support"
   <-> category_score "technical_support" text > 0
       /\ forall c, In c category_names ->
                    category_score c text <= category_score "technical_support" text)
  /\ (_determine_category subject body = Ok "general"
      <-> (forall c, In c category_names -> category_score c text = 0)
          \/ forall c, In c ["technical_support"; "billing"; "account"; "integration"] ->
                       category_score c text < category_score "general" text).
Proof.
  intros text.
  destruct (determine_category_first subject body)
    as (w & pre & post & Hsplit & Hpre & Hpost & E). fold text in Hpre, Hpost, E.
  assert (Hw : In w category_names).
  { rewrite Hsplit. apply in_or_app. right. left. reflexivity. }
  assert (Hmax : forall c, In c category_names ->
                           category_score c text <= category_score w text).
  { intros c Hc. rewrite Hsplit in Hc. apply in_app_or in Hc as [Hc|[<-|Hc]].
    - specialize (Hpre c Hc). lia.
    - lia.
    - auto. }
  assert (Hnn : forall c, 0 <= category_score c text)
    by (intros c; apply keyword_hits_nonneg).
  assert (Htech : In "technical_support" category_names) by (simpl; auto).
  assert (Hgen : In "general" category_names) by (simpl; auto 6).
  rewrite E. split; split.
  - destruct (Z.gtb_spec (category_score w text) 0) as [Hpos|Hle];
      intros H; unfold Ok in H; [|discriminate H].
    injection H as ->. split; [lia | exact Hmax].
  - intros [Hpos Hall]. pose proof (Hmax _ Htech) as Hle.
    destruct (Z.gtb_spec (category_score w text) 0) as [_|]; [|lia].
    destruct pre as [|x pre].
    + rewrite category_names_eq in Hsplit. cbn in Hsplit.
      injection Hsplit as <- _. reflexivity.
    + rewrite category_names_eq in Hsplit. cbn in Hsplit.
      injection Hsplit as <- _.
      specialize (Hpre "technical_support" (or_introl eq_refl)).
      specialize (Hall w Hw). lia.
  - destruct (Z.gtb_spec (category_score w text) 0) as [Hpos|Hle]; intros H.
    + right. unfold Ok in H. injection H as Hwg.
      rewrite (names_split_last pre post w Hsplit Hwg) in Hpre.
      rewrite Hwg in Hpre. exact Hpre.
    + left. intros c Hc. specialize (Hmax c Hc). specialize (Hnn c). lia.
  - intros [Hzero|Hbelow].
    + rewrite (Hzero w Hw). reflexivity.
    + destruct (string_dec w "general") as [->|Hne].
      * destruct (_ >? 0); reflexivity.
      * assert (In w ["technical_support"; "billing"; "account"; "integration"]).
        { rewrite category_names_eq in Hw. cbn [In] in Hw |- *.
          intuition congruence. }
        specialize (Hbelow w H). specialize (Hmax _ Hgen). lia.
Qed.

End ReasoningExtras.

(** ** The text between the braces *)

Module BraceExtras.
Import Py Http PyFacts ClassifierFacts Measures.

Lemma length_app (a b : string) :
  String.length (a ++ b) = (String.length a + String.length b)%nat.
Proof. induction a as [|c a IH]; simpl; [reflexivity | now rewrite IH]. Qed.

Lemma app_inv_head (a x y : string) : a ++ x = a ++ y -> x = y.
Proof.
  induction a as [|c a IH]; simpl; intros H; [exact H|].
  injection H as H. exact (IH H).
Qed.

(** Two ways to cut one string: the shorter front is a front of the
    longer one. *)
Lemma app_eq_split (a b x y : string) :
  a ++ x = b ++ y -> (String.length a <= String.length b)%nat ->
  exists m, b = a ++ m /\ x = m ++ y.
Proof.
  revert b. induction a as [|c a IH]; intros b H Hlen.
  - exists b. split; [reflexivity | exact H].
  - destruct b as [|d b]; [simpl in Hlen; lia|].
    simpl in H, Hlen. injection H as -> H.
    destruct (IH b H) as (m & -> & ->); [lia|].
    exists m. split; reflexivity.
Qed.

Lemma find_char_split (c : ascii) (s : string) :
  find_char c s <> -1 ->
  exists pre post,
    s = pre ++ String c post
    /\ find_char c pre = -1
    /\ find_char c s = Z.of_nat (String.length pre).
Proof.
  induction s as [|d s IH]; cbn [find_char]; [congruence|].
  destruct (Ascii.eqb_spec d c) as [->|Hne]; intros H.
  - exists EmptyString, s. repeat split.
  - destruct (Z.eqb_spec (find_char c s) (-1)) as [|Hs]; [congruence|].
    destruct (IH Hs) as (pre & post & -> & Hpre & Hn).
    exists (String d pre), post. repeat split.
    + cbn [find_char]. rewrite Hpre.
      destruct (Ascii.eqb_spec d c); [contradiction | reflexivity].
    + rewrite Hn. cbn [String.length]. lia.
Qed.

Lemma rfind_char_lower_bound (c : ascii) (s : string) : -1 <= rfind_char c s.
Proof.
  induction s as [|d s IH]; cbn [rfind_char]; [lia|].
  destruct (Z.eqb_spec (rfind_char c s) (-1)); [|lia].
  destruct (Ascii.eqb d c); lia.
Qed.

Lemma rfind_char_split (c : ascii) (s : string) :
  rfind_char c s <> -1 ->
  exists pre post,
    s = pre ++ String c post
    /\ rfind_char c post = -1
    /\ rfind_char c s = Z.of_nat (String.length pre).
Proof.
  induction s as [|d s IH]; cbn [rfind_char]; [congruence|].
  destruct (Z.eqb_spec (rfind_char c s) (-1)) as [Hs|Hs]; intros H.
  - destruct (Ascii.eqb_spec d c) as [->|]; [|congruence].
    exists EmptyString, s. repeat split. exact Hs.
  - destruct (IH Hs) as (pre & post & -> & Hpost & Hn).
    exists (String d pre), post. repeat split; [exact Hpost|].
    rewrite Hn. cbn [String.length]. lia.
Qed.

Lemma substring_skip (pre x : string) (k : nat) :
  String.substring (String.length pre) k (pre ++ x) = String.substring 0 k x.
Proof. induction pre as [|c pre IH]; [reflexivity | exact IH]. Qed.

Lemma substring_front (x y : string) :
  String.substring 0 (String.length x) (x ++ y) = x.
Proof.
  induction x as [|c x IH]; simpl.
  - destruct y; reflexivity.
  - now rewrite IH.
Qed.

Lemma brace_slice_split (response_text : string)
    (Hstart : find_char "{" response_text <> -1)
    (Hend : rfind_char "}" response_text + 1 > find_char "{" response_text) :
  exists front inner rest,
    response_text = front ++ "{" ++ inner ++ "}" ++ rest
    /\ find_char "{" front = -1
    /\ rfind_char "}" rest = -1
    /\ slice response_text (find_char "{" response_text)
         (rfind_char "}" response_text + 1)
       = "{" ++ inner ++ "}".
Proof.
  destruct (find_char_split "{" response_text Hstart) as (front & post & E1 & Hfront & Hn).
  assert (Hr : rfind_char "}" response_text <> -1).
  { pose proof (TemplateSpec.find_char_lower_bound "{" response_text). lia. }
  destruct (rfind_char_split "}" response_text Hr) as (pre & rest & E2 & Hrest & Hm).
  assert (Hlen : (String.length front <= String.length pre)%nat) by lia.
  assert (E : front ++ String "{" post = pre ++ String "}" rest) by congruence.
  destruct (app_eq_split _ _ _ _ E Hlen) as (m & -> & Em).
  destruct m as [|c inner]; [discriminate Em|].
  simpl in Em. injection Em as <- ->.
  exists front, inner, rest. split; [exact E1|]. split; [exact Hfront|].
  split; [exact Hrest|].
  unfold slice. rewrite Hm, Hn, Nat2Z.id.
  replace (Z.to_nat (Z.of_nat (String.length (front ++ String "{" inner)) + 1
                     - Z.of_nat (String.length front)))
    with (String.length ("{" ++ inner ++ "}")).
  - rewrite E1, substring_skip.
    change (String "{" (inner ++ String "}" rest))
      with (("{" ++ inner) ++ "}" ++ rest).
    rewrite <- (string_app_assoc ("{" ++ inner) "}" rest).
    rewrite (string_app_assoc "{" inner "}"). apply substring_front.
  - rewrite !length_app. cbn [String.length]. lia.
Qed.

(** X8: what the classifier hands to [json.loads].  When the guard
    [start_idx != -1 and end_idx > start_idx] passes, the text splits into
    a front without "{", the slice, and a rest without "}"; the slice
    opens with the first "{" of the text and closes with its last "}". *)
Theorem brace_slice (response_text : string)
    (Hstart : find_char "{" response_text <> -1)
    (Hend : rfind_char "}" response_text + 1 > find_char "{" response_text) :
  exists front inner rest,
    response_text = front ++ "{" ++ inner ++ "}" ++ rest
    /\ find_char "{" front = -1
    /\ rfind_char "}" rest = -1
    /\ slice response_text (find_char "{" response_text)
         (rfind_char "}" response_text + 1)
       = "{" ++ inner ++ "}".
Proof. exact (brace_slice_split response_text Hstart Hend). Qed.

Lemma brace_slice_run :
  exists front inner rest,
    Scenario.response_text = front ++ "{" ++ inner ++ "}" ++ rest
    /\ find_char "{" front = -1
    /\ rfind_char "}" rest = -1
    /\ slice Scenario.response_text (find_char "{" Scenario.response_text)
         (rfind_char "}" Scenario.response_text + 1)
       = "{" ++ inner ++ "}".
Proof.
  apply brace_slice.
  - vm_compute. discriminate.
  - vm_compute. reflexivity.
Defined.

End BraceExtras.

(** ** When the model path returns and when it does not *)

Module ModelPathExtras.
Import Py Http PyFacts ClassifierFacts Measures.

Lemma classify_with_llama_inv (self : EmailClassifier.t) (w : world)
    (sender subject body : string) (v : pyval)
    (Hret : EmailClassifier._classify_with_llama self w sender subject body = Ok v) :
  exists text result response_text,
    post w (EmailClassifier.classify_request self sender subject body)
    = Responds 200 text
    /\ json_loads w text = Some (PDict result)
    /\ dict_get result "response" (PStr "") = PStr response_text
    /\ find_char "{" response_text <> -1
    /\ rfind_char "}" response_text + 1 > find_char "{" response_text
    /\ json_loads w
         (slice response_text (find_char "{" response_text)
            (rfind_char "}" response_text + 1))
       = Some v
    /\ all_keys_in v three_keys = Ok true.
Proof.
  unfold EmailClassifier._classify_with_llama, requests_post in Hret.
  destruct (post w _) as [|status_code text] eqn:Hpost; [discriminate Hret|].
  cbv zeta in Hret. rewrite bind_Ok in Hret.
  destruct (Z.eqb_spec status_code 200) as [->|_]; [|discriminate Hret].
  unfold EmailClassifier.extract_classification, response_json in Hret.
  destruct (json_loads w text) as [result|] eqn:Hjson;
    [|destruct (json_refusal w text); discriminate Hret].
  rewrite bind_Ok in Hret.
  destruct result as [| | | | |items|result]; try discriminate Hret.
  unfold py_get in Hret. rewrite bind_Ok in Hret.
  destruct (dict_get result "response" (PStr "")) as [| | | |rt| |] eqn:Htext;
    try discriminate Hret.
  unfold py_find, py_rfind in Hret. rewrite !bind_Ok in Hret. cbv zeta in Hret.
  destruct (Z.eqb_spec (find_char "{" rt) (-1)) as [|Hstart]; [discriminate Hret|].
  destruct (Z.gtb_spec (rfind_char "}" rt + 1) (find_char "{" rt)) as [Hend|];
    [|discriminate Hret].
  cbn [negb andb] in Hret. unfold py_slice, loads in Hret. rewrite bind_Ok in Hret.
  destruct (json_loads w (slice rt _ _)) as [parsed|] eqn:Hloads;
    [|destruct (json_refusal w (slice rt _ _)); discriminate Hret].
  rewrite bind_Ok in Hret.
  destruct (all_keys_in parsed ["category"; "priority"; "reasoning"])
    as [e|[|]] eqn:Hkeys.
  - destruct e; discriminate Hret.
  - assert (parsed = v) as -> by (unfold Ok in Hret; cbn in Hret; congruence).
    exists text, result, rt. repeat split; try assumption. lia.
  - discriminate Hret.
Qed.

(** X9: the model path of the classifier returns a value only when the
    endpoint answered 200 with a dictionary whose "response" is a text
    that passes the brace guard, and then the value is what [json.loads]
    made of the slice, and it passed the test of the three keys. *)
Theorem classify_with_llama_returns (self : EmailClassifier.t) (w : world)
    (sender subject body : string) (v : pyval)
    (Hret : EmailClassifier._classify_with_llama self w sender subject body = Ok v) :
  exists text result response_text,
    post w (EmailClassifier.classify_request self sender subject body)
    = Responds 200 text
    /\ json_loads w text = Some (PDict result)
    /\ dict_get result "response" (PStr "") = PStr response_text
    /\ find_char "{" response_text <> -1
    /\ rfind_char "}" response_text + 1 > find_char "{" response_text
    /\ json_loads w
         (slice response_text (find_char "{" response_text)
            (rfind_char "}" response_text + 1))
       = Some v
    /\ all_keys_in v three_keys = Ok true.
Proof. exact (classify_with_llama_inv self w sender subject body v Hret). Qed.

Lemma classify_with_llama_returns_run :
  exists text result response_text,
    post Scenario.answering
      (EmailClassifier.classify_request EmailClassifier.default "a@b.c" "Offer" "Buy now")
    = Responds 200 text
    /\ json_loads Scenario.answering text = Some (PDict result)
    /\ dict_get result "response" (PStr "") = PStr response_text
    /\ find_char "{" response_text <> -1
    /\ rfind_char "}" response_text + 1 > find_char "{" response_text
    /\ json_loads Scenario.answering
         (slice response_text (find_char "{" response_text)
            (rfind_char "}" response_text + 1))
       = Some (PDict Scenario.parsed)
    /\ all_keys_in (PDict Scenario.parsed) three_keys = Ok true.
Proof.
  apply (classify_with_llama_returns EmailClassifier.default Scenario.answering
           "a@b.c" "Offer" "Buy now").
  vm_compute. reflexivity.
Defined.

Lemma all_keys_in_dict (d : dict pyval) :
  all_keys_in (PDict d) three_keys = Ok true ->
  dict_mem d "category" = true /\ dict_mem d "priority" = true
  /\ dict_mem d "reasoning" = true.
Proof.
  unfold three_keys, all_keys_in, py_contains.
  destruct (dict_mem d "category"); rewrite bind_Ok; [|discriminate].
  destruct (dict_mem d "priority"); rewrite bind_Ok; [|discriminate].
  destruct (dict_mem d "reasoning"); rewrite bind_Ok; [|discriminate].
  auto.
Qed.

(** X10: whatever [classify_email] returns has passed the test of the
    three keys, on the model path as on the rule-based one; with a decoder
    that makes dictionaries of texts in braces it is a dictionary that
    holds "category", "priority" and "reasoning", so the subscripts of the
    caller find them. *)
Theorem classification_has_keys (self : EmailClassifier.t) (w : world)
    (sender subject body : string) :
  (exists v, EmailClassifier.classify_email self w sender subject body = Ok v
             /\ all_keys_in v three_keys = Ok true)
  /\ (braces_give_dict (json_loads w) ->
      exists d,
        EmailClassifier.classify_email self w sender subject body = Ok (PDict d)
        /\ dict_mem d "category" = true
        /\ dict_mem d "priority" = true
        /\ dict_mem d "reasoning" = true).
Proof.
  destruct (classify_rule_based_total sender subject body) as (c & p & r & Erule & _).
  unfold EmailClassifier.classify_email.
  destruct (FallbackSpec.result_cases
              (EmailClassifier._classify_with_llama self w sender subject body))
    as [(v & E)|(e & E)]; rewrite E.
  - destruct (classify_with_llama_inv self w sender subject body v E)
      as (text & result & rt & _ & _ & _ & Hstart & Hend & Hloads & Hkeys).
    rewrite FallbackSpec.try_except_Ok. split.
    + exists v. auto.
    + intros Hdec.
      destruct (BraceExtras.brace_slice_split rt Hstart Hend) as (front & inner & rest & _ & _ & _ & Hslice).
      rewrite Hslice in Hloads.
      destruct (Hdec _ _ Hloads I) as (d & ->).
      exists d. split; [reflexivity|]. apply all_keys_in_dict. exact Hkeys.
  - rewrite FallbackSpec.try_except_Raise, Erule. split.
    + eexists. split; reflexivity.
    + intros _. eexists. repeat split.
Qed.

Lemma classification_has_keys_run :
  exists d,
    EmailClassifier.classify_email EmailClassifier.default Scenario.answering
      "a@b.c" "Offer" "Buy now" = Ok (PDict d)
    /\ dict_mem d "category" = true
    /\ dict_mem d "priority" = true
    /\ dict_mem d "reasoning" = true.
Proof.
  apply (classification_has_keys EmailClassifier.default Scenario.answering
           "a@b.c" "Offer" "Buy now").
  intros s v H _. cbn [json_loads Scenario.answering scripted dict_lookup] in H.
  destruct (String.eqb Scenario.http_text s); [injection H as <-; eexists; reflexivity|].
  destruct (String.eqb Scenario.json_str s); [injection H as <-; eexists; reflexivity|].
  discriminate H.
Defined.

(** X11: an answer of status 200 that cannot be used.  The model path
    raises "Invalid response from Llama API" when the text has no "{", has
    no "}" at or after the first "{", has a slice that [json.loads] refuses
    with [JSONDecodeError], or decodes to a dictionary without one of the
    three keys.  When [json.loads] refuses the slice with [ValueError]
    (an integer too long) or [RecursionError] (nesting too deep), neither
    handler of the model path catches it and that exception leaves the
    model path as it is.  In every one of these cases [classify_email]
    returns the rule-based dictionary. *)
Theorem unusable_answer_falls_back (self : EmailClassifier.t) (w : world)
    (sender subject body text response_text : string) (result : dict pyval)
    (Hpost : post w (EmailClassifier.classify_request self sender subject body)
             = Responds 200 text)
    (Hjson : json_loads w text = Some (PDict result))
    (Htext : dict_get result "response" (PStr "") = PStr response_text) :
  let json_str :=
    slice response_text (find_char "{" response_text)
      (rfind_char "}" response_text + 1) in
  let guard :=
    find_char "{" response_text <> -1
    /\ rfind_char "}" response_text + 1 > find_char "{" response_text in
  let missing_key :=
    exists parsed,
      json_loads w json_str = Some (PDict parsed)
      /\ (dict_mem parsed "category" = false
          \/ dict_mem parsed "priority" = false
          \/ dict_mem parsed "reasoning" = false) in
  (find_char "{" response_text = -1
   \/ rfind_char "}" response_text + 1 <= find_char "{" response_text
   \/ (json_loads w json_str = None
       /\ exists message, json_refusal w json_str = Malformed message)
   \/ missing_key ->
   EmailClassifier._classify_with_llama self w sender subject body
   = Raise (Exception "Invalid response from Llama API"))
  /\ (guard -> json_loads w json_str = None ->
      json_refusal w json_str = IntegerTooLong ->
      EmailClassifier._classify_with_llama self w sender subject body
      = Raise ValueError)
  /\ (guard -> json_loads w json_str = None ->
      json_refusal w json_str = NestingTooDeep ->
      EmailClassifier._classify_with_llama self w sender subject body
      = Raise RecursionError)
  /\ (find_char "{" response_text = -1
      \/ rfind_char "}" response_text + 1 <= find_char "{" response_text
      \/ json_loads w json_str = None
      \/ missing_key ->
      EmailClassifier.classify_email self w sender subject body
      = EmailClassifier._classify_rule_based sender subject body).
Proof.
  intros json_str guard missing_key.
  assert (Hrun :
    EmailClassifier._classify_with_llama self w sender subject body
    = try_except_request
        (returned <-
           try_except_only is_JSONDecodeError
             (if (negb (find_char "{" response_text =? -1)
                  && (rfind_char "}" response_text + 1
                      >? find_char "{" response_text))%bool
              then
                classification <- loads w json_str ;;
                valid <- all_keys_in classification three_keys ;;
                if valid : bool then ret (Some classification) else ret None
              else ret None)
             (fun _ => ret None) ;;
         match returned with
         | Some classification => ret classification
         | None => raise (Exception "Invalid response from Llama API")
         end)
        (fun e => raise (Exception ("Failed to connect to Ollama: " ++ e)))).
  { unfold EmailClassifier._classify_with_llama, requests_post.
    rewrite Hpost. cbv zeta. rewrite bind_Ok. cbn [Z.eqb Pos.eqb].
    unfold EmailClassifier.extract_classification, response_json.
    rewrite Hjson, bind_Ok. unfold py_get. rewrite Htext, bind_Ok.
    unfold py_find, py_rfind. rewrite !bind_Ok. cbv zeta.
    unfold py_slice.
    destruct (negb _ && _)%bool; [rewrite bind_Ok|]; reflexivity. }
  assert (Hinvalid :
    find_char "{" response_text = -1
    \/ rfind_char "}" response_text + 1 <= find_char "{" response_text
    \/ (json_loads w json_str = None
        /\ exists message, json_refusal w json_str = Malformed message)
    \/ missing_key ->
    EmailClassifier._classify_with_llama self w sender subject body
    = Raise (Exception "Invalid response from Llama API")).
  { intros Hbad. rewrite Hrun.
    destruct (Z.eqb_spec (find_char "{" response_text) (-1)) as [|Hstart];
      [reflexivity|].
    destruct (Z.gtb_spec (rfind_char "}" response_text + 1)
                (find_char "{" response_text)) as [Hend|]; [|reflexivity].
    cbn [negb andb]. unfold loads.
    destruct Hbad as [H|[H|[(H & message & Hm)|(parsed & H & Hkey)]]]; try lia.
    - rewrite H, Hm. reflexivity.
    - rewrite H, bind_Ok. unfold three_keys, all_keys_in, py_contains.
      destruct (dict_mem parsed "category"); rewrite bind_Ok; [|reflexivity].
      destruct (dict_mem parsed "priority"); rewrite bind_Ok; [|reflexivity].
      destruct (dict_mem parsed "reasoning"); rewrite bind_Ok; [|reflexivity].
      destruct Hkey as [?|[?|?]]; discriminate. }
  assert (Hguard : guard ->
    (negb (find_char "{" response_text =? -1)
     && (rfind_char "}" response_text + 1 >? find_char "{" response_text))%bool
    = true).
  { intros [Hstart Hend].
    destruct (Z.eqb_spec (find_char "{" response_text) (-1)); [contradiction|].
    destruct (Z.gtb_spec (rfind_char "}" response_text + 1)
                (find_char "{" response_text)); [reflexivity | lia]. }
  assert (Hlong : guard -> json_loads w json_str = None ->
                  json_refusal w json_str = IntegerTooLong ->
                  EmailClassifier._classify_with_llama self w sender subject body
                  = Raise ValueError).
  { intros Hg Hnone Hwhy. rewrite Hrun, (Hguard Hg). unfold loads.
    rewrite Hnone, Hwhy. reflexivity. }
  assert (Hdeep : guard -> json_loads w json_str = None ->
                  json_refusal w json_str = NestingTooDeep ->
                  EmailClassifier._classify_with_llama self w sender subject body
                  = Raise RecursionError).
  { intros Hg Hnone Hwhy. rewrite Hrun, (Hguard Hg). unfold loads.
    rewrite Hnone, Hwhy. reflexivity. }
  split; [exact Hinvalid|]. split; [exact Hlong|]. split; [exact Hdeep|].
  intros Hbad. unfold EmailClassifier.classify_email.
  assert (Hraise : exists e,
            EmailClassifier._classify_with_llama self w sender subject body
            = Raise e).
  { destruct Hbad as [H|[H|[H|H]]].
    - eexists. apply Hinvalid. auto.
    - eexists. apply Hinvalid. auto.
    - destruct (Z.eq_dec (find_char "{" response_text) (-1)) as [|Hstart];
        [eexists; apply Hinvalid; auto|].
      destruct (Z_le_gt_dec (rfind_char "}" response_text + 1)
                  (find_char "{" response_text)) as [|Hend];
        [eexists; apply Hinvalid; auto|].
      destruct (json_refusal w json_str) as [message| |] eqn:Hwhy.
      + eexists. apply Hinvalid. right. right. left. eauto.
      + eexists. apply Hlong; [split|..]; first [assumption | reflexivity].
      + eexists. apply Hdeep; [split|..]; first [assumption | reflexivity].
    - eexists. apply Hinvalid. auto. }
  destruct Hraise as (e & ->). reflexivity.
Qed.

Lemma unusable_answer_falls_back_run :
  EmailClassifier._classify_with_llama EmailClassifier.default Scenario.incomplete
    "a@b.c" "Invoice" "refund please"
  = Raise (Exception "Invalid response from Llama API")
  /\ EmailClassifier.classify_email EmailClassifier.default Scenario.incomplete
       "a@b.c" "Invoice" "refund please"
     = EmailClassifier._classify_rule_based "a@b.c" "Invoice" "refund please"
  /\ EmailClassifier._classify_with_llama EmailClassifier.default Scenario.overlong
       "a@b.c" "Invoice" "refund please"
     = Raise ValueError
  /\ EmailClassifier.classify_email EmailClassifier.default Scenario.overlong
       "a@b.c" "Invoice" "refund please"
     = EmailClassifier._classify_rule_based "a@b.c" "Invoice" "refund please".
Proof.
  destruct (unusable_answer_falls_back EmailClassifier.default Scenario.incomplete
              "a@b.c" "Invoice" "refund please" Scenario.http_text
              Scenario.short_json [("response", PStr Scenario.short_json)])
    as (Hinvalid & _ & _ & Hfall); try (vm_compute; reflexivity).
  destruct (unusable_answer_falls_back EmailClassifier.default Scenario.overlong
              "a@b.c" "Invoice" "refund please" Scenario.http_text
              Scenario.long_json [("response", PStr Scenario.long_json)])
    as (_ & Hlong & _ & Hfall'); try (vm_compute; reflexivity).
  assert (Hmissing : exists parsed,
             json_loads Scenario.incomplete
               (slice Scenario.short_json (find_char "{" Scenario.short_json)
                  (rfind_char "}" Scenario.short_json + 1))
             = Some (PDict parsed)
             /\ (dict_mem parsed "category" = false
                 \/ dict_mem parsed "priority" = false
                 \/ dict_mem parsed "reasoning" = false)).
  { exists [("category", PStr "billing"); ("priority", PStr "low")].
    split; [vm_compute; reflexivity|]. right. right. vm_compute. reflexivity. }
  split; [apply Hinvalid; auto|]. split; [apply Hfall; auto|]. split.
  - apply Hlong; [split; [vm_compute; discriminate | vm_compute; reflexivity]|..];
      vm_compute; reflexivity.
  - apply Hfall'. right. right. left. vm_compute. reflexivity.
Defined.

Lemma generate_with_llama_down (rg : ResponseGenerator.t) (w : world)
    (sender subject body category tone : string) :
  endpoint_down (post w) ->
  exists e, ResponseGenerator._generate_with_llama rg w sender subject body
              category tone = Raise e.
Proof.
  intros Hdown. unfold ResponseGenerator._generate_with_llama.
  destruct (FallbackSpec.sender_name_of_total sender) as (n & ->).
  rewrite bind_Ok. cbv zeta. unfold requests_post.
  specialize (Hdown (ResponseGenerator.generate_request rg sender subject body
                       category tone n)).
  destruct (post w _) as [|status_code text]; [eexists; reflexivity|].
  rewrite bind_Ok.
  destruct (Z.eqb_spec status_code 200); [contradiction | eexists; reflexivity].
Qed.

Lemma classify_with_llama_down (ec : EmailClassifier.t) (w : world)
    (sender subject body : string) :
  endpoint_down (post w) ->
  exists e, EmailClassifier._classify_with_llama ec w sender subject body = Raise e.
Proof.
  intros Hdown.
  specialize (Hdown (EmailClassifier.classify_request ec sender subject body)).
  destruct (post w _) as [|status_code text] eqn:Hpost.
  - eexists. apply FallbackSpec.classify_with_llama_unreachable. exact Hpost.
  - eexists. eapply FallbackSpec.classify_with_llama_bad_status; eauto.
Qed.

(** X12: with the endpoint down (unreachable, or answering with a status
    other than 200), a reply is still drafted end to end: [classify_email]
    returns what [_classify_rule_based] returns, a dictionary whose
    category is one the templates know, and [generate_response] for that
    category returns what [_generate_template_response] returns: greeting,
    body, courtesy sentence and closing from the tables, separated by blank
    lines. *)
Theorem endpoint_down_end_to_end (ec : EmailClassifier.t) (rg : ResponseGenerator.t)
    (w : world) (sender subject body tone : string)
    (Hdown : endpoint_down (post w)) :
  exists c p r n g b cl,
    EmailClassifier.classify_email ec w sender subject body
    = EmailClassifier._classify_rule_based sender subject body
    /\ EmailClassifier._classify_rule_based sender subject body
       = Ok (EmailClassifier.classification c p r)
    /\ EmailClassifier._determine_category subject body = Ok c
    /\ In c (dict_keys ResponseGenerator.templates)
    /\ ResponseGenerator.generate_response rg w sender subject body c tone
       = ResponseGenerator._generate_template_response sender subject body c tone
    /\ ResponseGenerator.sender_name_of sender = Ok n
    /\ ResponseGenerator.select_greeting n tone = Ok g
    /\ ResponseGenerator.select_content c tone = Ok b
    /\ ResponseGenerator.select_closing tone = Ok cl
    /\ ResponseGenerator.generate_response rg w sender subject body c tone
       = Ok (g ++ nl ++ nl ++ b ++ nl ++ nl ++ ResponseGenerator.courtesy
             ++ nl ++ nl ++ cl).
Proof.
  destruct (classify_rule_based_total sender subject body)
    as (c & p & r & Erule & Hc & _).
  destruct (determine_category_total subject body) as (c' & Hc' & Hin).
  rewrite Hc in Hc'. assert (c' = c) as -> by (unfold Ok in Hc'; congruence).
  destruct (FallbackSpec.template_response_total sender subject body c tone)
    as (n & g & b & cl & Hn & Hg & Hb & Hcl & Etpl).
  destruct (classify_with_llama_down ec w sender subject body Hdown) as (e & Ec).
  destruct (generate_with_llama_down rg w sender subject body c tone Hdown)
    as (e' & Eg).
  exists c, p, r, n, g, b, cl.
  unfold EmailClassifier.classify_email, ResponseGenerator.generate_response.
  rewrite Ec, Eg, !FallbackSpec.try_except_Raise.
  split; [reflexivity|]. split; [exact Erule|]. split; [exact Hc|].
  split; [exact Hin|]. split; [reflexivity|].
  repeat (split; [assumption|]). exact Etpl.
Qed.

Lemma endpoint_down_end_to_end_run :
  exists c p r n g b cl,
    EmailClassifier.classify_email EmailClassifier.default Scenario.unavailable
      "jane.doe@example.com" "Invoice" "refund please"
    = EmailClassifier._classify_rule_based "jane.doe@example.com" "Invoice"
        "refund please"
    /\ EmailClassifier._classify_rule_based "jane.doe@example.com" "Invoice"
         "refund please"
       = Ok (EmailClassifier.classification c p r)
    /\ EmailClassifier._determine_category "Invoice" "refund please" = Ok c
    /\ In c (dict_keys ResponseGenerator.templates)
    /\ ResponseGenerator.generate_response ResponseGenerator.default
         Scenario.unavailable "jane.doe@example.com" "Invoice" "refund please"
         c "casual"
       = ResponseGenerator._generate_template_response "jane.doe@example.com"
           "Invoice" "refund please" c "casual"
    /\ ResponseGenerator.sender_name_of "jane.doe@example.com" = Ok n
    /\ ResponseGenerator.select_greeting n "casual" = Ok g
    /\ ResponseGenerator.select_content c "casual" = Ok b
    /\ ResponseGenerator.select_closing "casual" = Ok cl
    /\ ResponseGenerator.generate_response ResponseGenerator.default
         Scenario.unavailable "jane.doe@example.com" "Invoice" "refund please"
         c "casual"
       = Ok (g ++ nl ++ nl ++ b ++ nl ++ nl ++ ResponseGenerator.courtesy
             ++ nl ++ nl ++ cl).
Proof.
  apply endpoint_down_end_to_end. intros r. vm_compute. discriminate.
Defined.

End ModelPathExtras.

(** ** The generated text and the template response *)

Module GeneratorExtras.
Import Py Http PyFacts ClassifierFacts Measures ResponseGenerator.

Lemma lstrip_cases (s : string) :
  (lstrip s = EmptyString /\ all_space s = true)
  \/ (exists c t, lstrip s = String c t /\ is_space c = false /\ all_space s = false).
Proof.
  unfold all_space. induction s as [|c s IH]; [left; split; reflexivity|].
  cbn [lstrip list_ascii_of_string forallb].
  destruct (is_space c) eqn:E; [exact IH|].
  right. exists c, s. auto.
Qed.

Lemma rstrip_keeps_head (c : ascii) (t : string) :
  is_space c = false -> rstrip (String c t) = String c (rstrip t).
Proof.
  intros E. cbn [rstrip]. destruct (rstrip t); [now rewrite E | reflexivity].
Qed.

Lemma rstrip_last (s : string) (c : ascii) :
  last_char (rstrip s) = Some c -> is_space c = false.
Proof.
  induction s as [|d s IH]; cbn [rstrip]; [discriminate|].
  destruct (rstrip s) as [|e t] eqn:E.
  - destruct (is_space d) eqn:Ed; [discriminate|].
    cbn [last_char]. intros H. injection H as <-. exact Ed.
  - intros H. apply IH. exact H.
Qed.

(** [strip] leaves nothing exactly of white space, and what it leaves
    neither opens nor ends with white space. *)
Lemma strip_spec (s : string) :
  (all_space s = true -> strip s = EmptyString)
  /\ (all_space s = false ->
      strip s <> EmptyString
      /\ (forall c, first_char (strip s) = Some c -> is_space c = false)
      /\ (forall c, last_char (strip s) = Some c -> is_space c = false)).
Proof.
  unfold strip. destruct (lstrip_cases s) as [[E Ha]|(c & t & E & Hc & Ha)];
    rewrite E, Ha; split; try discriminate.
  - reflexivity.
  - intros _. split; [|split].
    + rewrite rstrip_keeps_head by exact Hc. discriminate.
    + rewrite rstrip_keeps_head by exact Hc. intros d H. injection H as <-. exact Hc.
    + apply rstrip_last.
Qed.

Lemma generate_with_llama_200 (rg : t) (w : world)
    (sender subject body category tone n text response_text : string)
    (result : dict pyval) :
  sender_name_of sender = Ok n ->
  post w (generate_request rg sender subject body category tone n)
  = Responds 200 text ->
  json_loads w text = Some (PDict result) ->
  dict_get result "response" (PStr "") = PStr response_text ->
  _generate_with_llama rg w sender subject body category tone
  = match strip response_text with
    | EmptyString => Raise (Exception "Invalid response from Llama API")
    | stripped => Ok stripped
    end.
Proof.
  intros Hn Hpost Hjson Htext. unfold _generate_with_llama.
  rewrite Hn, bind_Ok. cbv zeta. unfold requests_post. rewrite Hpost, bind_Ok.
  cbn [Z.eqb Pos.eqb]. unfold extract_text, response_json.
  rewrite Hjson, bind_Ok. unfold py_get. rewrite Htext, bind_Ok.
  unfold py_strip. rewrite bind_Ok.
  destruct (strip response_text); reflexivity.
Qed.

(** X13: when the endpoint answers 200 with a text under "response",
    [generate_response] returns that text without the white space around
    it: the result is not empty and neither opens nor ends with white
    space.  A text of white space only (the default [''] of a missing key
    included) is refused, and the template response is returned. *)
Theorem generated_text_is_stripped (rg : t) (w : world)
    (sender subject body category tone n text response_text : string)
    (result : dict pyval)
    (Hname : sender_name_of sender = Ok n)
    (Hpost : post w (generate_request rg sender subject body category tone n)
             = Responds 200 text)
    (Hjson : json_loads w text = Some (PDict result))
    (Htext : dict_get result "response" (PStr "") = PStr response_text) :
  (all_space response_text = false ->
     generate_response rg w sender subject body category tone
     = Ok (strip response_text)
     /\ strip response_text <> EmptyString
     /\ (forall c, first_char (strip response_text) = Some c -> is_space c = false)
     /\ (forall c, last_char (strip response_text) = Some c -> is_space c = false))
  /\ (all_space response_text = true ->
     generate_response rg w sender subject body category tone
     = _generate_template_response sender subject body category tone).
Proof.
  pose proof (generate_with_llama_200 rg w sender subject body category tone n
                text response_text result Hname Hpost Hjson Htext) as E.
  destruct (strip_spec response_text) as [Hblank Hfull].
  unfold generate_response. split; intros Ha.
  - destruct (Hfull Ha) as (Hne & Hfirst & Hlast).
    split; [|auto]. rewrite E.
    destruct (strip response_text); [contradiction | reflexivity].
  - rewrite E, (Hblank Ha). reflexivity.
Qed.

Lemma generated_text_is_stripped_run :
  generate_response default Scenario.replying "jane.doe@example.com" "Login"
    "I cannot log in" "technical_support" "friendly"
  = Ok "Dear Jane, we are on it."
  /\ generate_response default Scenario.blank "jane.doe@example.com" "Login"
       "I cannot log in" "technical_support" "friendly"
     = _generate_template_response "jane.doe@example.com" "Login"
         "I cannot log in" "technical_support" "friendly".
Proof.
  split.
  - refine (proj1 (proj1 (generated_text_is_stripped default Scenario.replying
             "jane.doe@example.com" "Login" "I cannot log in" "technical_support"
             "friendly" "Jane Doe" Scenario.http_text Scenario.reply_text
             [("response", PStr Scenario.reply_text)] _ _ _ _) _));
      vm_compute; reflexivity.
  - refine (proj2 (generated_text_is_stripped default Scenario.blank
             "jane.doe@example.com" "Login" "I cannot log in" "technical_support"
             "friendly" "Jane Doe" Scenario.http_text ("  " ++ nl)
             [("response", PStr ("  " ++ nl))] _ _ _ _) _);
      vm_compute; reflexivity.
Defined.

Lemma diverge_neq (p1 p2 x y : string) :
  diverge p1 p2 = true -> p1 ++ x <> p2 ++ y.
Proof.
  revert p2. induction p1 as [|c p1 IH]; intros [|d p2]; cbn [diverge];
    try discriminate.
  destruct (Ascii.eqb_spec c d) as [->|Hne]; intros H E; simpl in E.
  - injection E as E. exact (IH p2 H E).
  - injection E as E _. contradiction.
Qed.

Lemma greeting_forms (n tone : string) :
  In tone tone_names ->
  exists front back,
    In (tone, front, back)
       [ ("professional", "Dear ", ","); ("friendly", "Hi ", "!");
         ("formal", "Dear ", ","); ("casual", "Hey ", ",") ]
    /\ select_greeting n tone = Ok (front ++ n ++ back).
Proof.
  intros H. unfold tone_names in H.
  destruct H as [<-|[<-|[<-|[<-|[]]]]]; eexists _, _;
    (split; [|reflexivity]); simpl; auto 6.
Qed.

(** X14: for one sender and one category, two different tones of the four
    never give the same template response. *)
Theorem tones_give_distinct_responses
    (sender subject body category tone1 tone2 : string)
    (H1 : In tone1 tone_names) (H2 : In tone2 tone_names)
    (Hne : tone1 <> tone2) :
  _generate_template_response sender subject body category tone1
  <> _generate_template_response sender subject body category tone2.
Proof.
  destruct (FallbackSpec.template_response_total sender subject body category tone1)
    as (n & g1 & c1 & cl1 & Hn & Hg1 & Hc1 & Hcl1 & ->).
  destruct (FallbackSpec.template_response_total sender subject body category tone2)
    as (n' & g2 & c2 & cl2 & Hn' & Hg2 & Hc2 & Hcl2 & ->).
  assert (n' = n) as -> by (rewrite Hn in Hn'; unfold Ok in Hn'; congruence).
  destruct (greeting_forms n tone1 H1) as (f1 & b1 & Hf1 & E1).
  destruct (greeting_forms n tone2 H2) as (f2 & b2 & Hf2 & E2).
  rewrite E1 in Hg1. rewrite E2 in Hg2.
  assert (g1 = f1 ++ n ++ b1) as -> by (unfold Ok in Hg1; congruence).
  assert (g2 = f2 ++ n ++ b2) as -> by (unfold Ok in Hg2; congruence).
  intros Heq. unfold Ok in Heq. injection Heq as Heq.
  rewrite !string_app_assoc in Heq.
  destruct (diverge f1 f2) eqn:Hd; [exact (diverge_neq _ _ _ _ Hd Heq)|].
  (* the two greetings open alike: professional and formal *)
  assert (Hpair : (tone1 = "professional" /\ tone2 = "formal")
                  \/ (tone1 = "formal" /\ tone2 = "professional")).
  { cbn [In] in Hf1, Hf2.
    destruct Hf1 as [Hf1|[Hf1|[Hf1|[Hf1|[]]]]]; injection Hf1 as <- <- <-;
      destruct Hf2 as [Hf2|[Hf2|[Hf2|[Hf2|[]]]]]; injection Hf2 as <- <- <-;
      try (vm_compute in Hd; discriminate Hd);
      try (exfalso; apply Hne; reflexivity); auto. }
  assert (f1 = "Dear " /\ f2 = "Dear " /\ b1 = "," /\ b2 = ",") as (-> & -> & -> & ->).
  { cbn [In] in Hf1, Hf2.
    destruct Hpair as [[-> ->]|[-> ->]];
      destruct Hf1 as [Hf1|[Hf1|[Hf1|[Hf1|[]]]]]; try discriminate Hf1;
      injection Hf1 as <- <-;
      destruct Hf2 as [Hf2|[Hf2|[Hf2|[Hf2|[]]]]]; try discriminate Hf2;
      injection Hf2 as <- <-; auto. }
  apply BraceExtras.app_inv_head in Heq. apply BraceExtras.app_inv_head in Heq.
  destruct TemplateSpec.select_content_eq as (general & fallback & Eg & Ef & E).
  rewrite E in Hc1, Hc2.
  assert (Hgen : general = dict_get templates "general" []).
  { vm_compute in Eg. vm_compute. unfold Ok in Eg. congruence. }
  assert (Hfb : fallback = dict_get (dict_get templates "general" []) "professional" "").
  { rewrite Hgen in Ef. vm_compute in Ef. vm_compute. unfold Ok in Ef. congruence. }
  assert (Htable : exists c, In c (dict_keys templates)
                             /\ dict_get templates category general
                                = dict_get templates c []).
  { unfold dict_get at 1. destruct (dict_lookup templates category) as [tb|] eqn:L.
    - unfold templates in L. cbn [dict_lookup] in L.
      repeat (match type of L with
              | (if String.eqb ?k category then _ else _) = _ =>
                  destruct (String.eqb k category);
                  [injection L as <-; exists k; split; [simpl; auto 6 | reflexivity]|]
              end).
      discriminate L.
    - exists "general". split; [simpl; auto 6 | exact Hgen]. }
  destruct Htable as (c & Hc & Etable). rewrite Etable, Hfb in Hc1, Hc2.
  assert (Hdiff : String.eqb (c1 ++ nl ++ nl ++ courtesy ++ nl ++ nl ++ cl1)
                              (c2 ++ nl ++ nl ++ courtesy ++ nl ++ nl ++ cl2) = false).
  { change (dict_keys templates)
      with ["technical_support"; "billing"; "account"; "integration"; "general"] in Hc.
    destruct Hpair as [[-> ->]|[-> ->]];
      destruct Hc as [<-|[<-|[<-|[<-|[<-|[]]]]]];
      vm_compute in Hc1, Hc2, Hcl1, Hcl2;
      injection Hc1 as <-; injection Hc2 as <-;
      injection Hcl1 as <-; injection Hcl2 as <-;
      vm_compute; reflexivity. }
  simpl in Heq. injection Heq as Heq.
  match type of Hdiff with
  | String.eqb ?a ?b = false =>
      assert (Ht : String.eqb a b = true) by (apply String.eqb_eq; exact Heq)
  end.
  congruence.
Qed.

Lemma tones_give_distinct_responses_run :
  _generate_template_response "jane.doe@example.com" "s" "b" "billing" "professional"
  <> _generate_template_response "jane.doe@example.com" "s" "b" "billing" "formal".
Proof.
  apply tones_give_distinct_responses.
  - simpl. auto.
  - simpl. auto.
  - discriminate.
Defined.

End GeneratorExtras.

(** ** The display name and unknown keys of the tables *)

Module TemplateExtras.
Import Py Http PyFacts ClassifierFacts Measures ResponseGenerator.

Lemma split_first_spec (sep : ascii) (s p : string) (ps : list string) :
  split_char sep s = p :: ps ->
  find_char sep p = -1 /\ (s = p \/ exists rest, s = p ++ String sep rest).
Proof.
  revert p ps. induction s as [|c s IH]; intros p ps; cbn [split_char].
  - intros H. injection H as <- <-. split; [reflexivity | left; reflexivity].
  - destruct (Ascii.eqb_spec c sep) as [->|Hne].
    + intros H. injection H as <- <-. split; [reflexivity|].
      right. exists s. reflexivity.
    + destruct (split_char sep s) as [|q qs] eqn:E.
      * destruct (FallbackSpec.split_char_nonempty sep s) as (q & qs & E').
        congruence.
      * intros H. injection H as <- <-.
        destruct (IH q qs eq_refl) as [Hq Hs]. split.
        -- cbn [find_char]. rewrite Hq.
           destruct (Ascii.eqb_spec c sep); [contradiction | reflexivity].
        -- destruct Hs as [->|(rest & ->)]; [left | right; exists rest]; reflexivity.
Qed.

Lemma replace_char_length (a b : ascii) (s : string) :
  String.length (replace_char a b s) = String.length s.
Proof. induction s as [|c s IH]; simpl; [reflexivity | now rewrite IH]. Qed.

Lemma title_from_length (prev : bool) (s : string) :
  String.length (title_from prev s) = String.length s.
Proof.
  revert prev. induction s as [|c s IH]; intros prev; cbn [title_from]; [reflexivity|].
  destruct (is_lower c); [|destruct (is_upper c)]; cbn [String.length];
    now rewrite IH.
Qed.

Lemma find_char_replaced (a b : ascii) (s : string) :
  a <> b -> find_char a (replace_char a b s) = -1.
Proof.
  intros Hne. induction s as [|c s IH]; cbn [replace_char find_char]; [reflexivity|].
  rewrite IH. destruct (Ascii.eqb_spec c a) as [->|Hc].
  - destruct (Ascii.eqb_spec b a); [congruence | reflexivity].
  - destruct (Ascii.eqb_spec c a); [contradiction | reflexivity].
Qed.

Lemma find_char_replace_other (x a b : ascii) (s : string) :
  x <> b -> find_char x s = -1 -> find_char x (replace_char a b s) = -1.
Proof.
  intros Hb. induction s as [|c s IH]; intros H; [reflexivity|].
  apply TemplateSpec.find_char_absent_cons in H as [Hc Hs].
  cbn [replace_char find_char]. rewrite (IH Hs).
  destruct (Ascii.eqb c a).
  - destruct (Ascii.eqb_spec b x); [congruence | reflexivity].
  - rewrite Hc. reflexivity.
Qed.

(** The case maps send letters to letters. *)
Lemma case_maps_letters (c : ascii) :
  (is_lower c = true -> is_upper (to_upper c) = true)
  /\ (is_upper c = true -> is_lower (to_lower c) = true).
Proof.
  destruct c as [[] [] [] [] [] [] [] []]; vm_compute; split; intros H;
    first [reflexivity | discriminate H].
Qed.

Lemma find_char_title (x : ascii) (prev : bool) (s : string) :
  is_letter x = false ->
  find_char x s = -1 -> find_char x (title_from prev s) = -1.
Proof.
  intros Hx. apply orb_false_iff in Hx as [Hxl Hxu].
  revert prev. induction s as [|c s IH]; intros prev H; [reflexivity|].
  apply TemplateSpec.find_char_absent_cons in H as [Hc Hs].
  cbn [title_from].
  assert (Hneq : forall d, (is_lower d = true \/ is_upper d = true) ->
                           Ascii.eqb d x = false).
  { intros d Hd. destruct (Ascii.eqb_spec d x) as [->|]; [|reflexivity].
    destruct Hd; congruence. }
  destruct (is_lower c) eqn:El; [|destruct (is_upper c) eqn:Eu];
    cbn [find_char]; rewrite (IH _ Hs).
  - destruct prev.
    + rewrite Hc. reflexivity.
    + rewrite (Hneq (to_upper c)); [reflexivity|].
      right. apply case_maps_letters. exact El.
  - destruct prev.
    + rewrite (Hneq (to_lower c)); [reflexivity|].
      left. apply case_maps_letters. exact Eu.
    + rewrite Hc. reflexivity.
  - rewrite Hc. reflexivity.
Qed.

(** X15: for an ASCII sender the display name exists, holds neither "@"
    nor ".", and is no longer than the sender; it is empty exactly when the
    sender is empty or starts with "@", and then the professional greeting
    is "Dear ,". *)
Theorem display_name_clean (sender : string)
    (Hascii : is_ascii sender = true) :
  exists n,
    sender_name_of sender = Ok n
    /\ find_char "@" n = -1
    /\ find_char "." n = -1
    /\ (String.length n <= String.length sender)%nat
    /\ (n = EmptyString
        <-> sender = EmptyString \/ exists rest, sender = "@" ++ rest)
    /\ (n = EmptyString -> select_greeting n "professional" = Ok "Dear ,").
Proof.
  unfold sender_name_of.
  destruct (FallbackSpec.split_char_nonempty "@" sender) as (p & ps & E).
  rewrite E. destruct (split_first_spec "@" sender p ps E) as [Hp Hs].
  exists (title (replace_char "." " " p)). split; [reflexivity|].
  assert (Hlen : String.length (title (replace_char "." " " p)) = String.length p).
  { unfold title. now rewrite title_from_length, replace_char_length. }
  split; [|split; [|split; [|split]]].
  - apply find_char_title; [reflexivity|].
    apply find_char_replace_other; [discriminate | exact Hp].
  - apply find_char_title; [reflexivity|].
    apply find_char_replaced. discriminate.
  - rewrite Hlen. destruct Hs as [->|(rest & ->)]; [lia|].
    rewrite BraceExtras.length_app. lia.
  - split.
    + intros Hn. rewrite Hn in Hlen. destruct p; [|discriminate Hlen].
      destruct Hs as [->|(rest & ->)]; [left; reflexivity | right; exists rest; reflexivity].
    + intros Hsender.
      assert (p = EmptyString) as ->; [|reflexivity].
      destruct Hsender as [->|(rest & ->)]; cbn in E; congruence.
  - intros ->. reflexivity.
Qed.

Lemma display_name_clean_run :
  exists n,
    sender_name_of "jane.doe@example.com" = Ok n
    /\ find_char "@" n = -1
    /\ find_char "." n = -1
    /\ (String.length n <= String.length "jane.doe@example.com")%nat
    /\ (n = EmptyString
        <-> "jane.doe@example.com" = EmptyString
            \/ exists rest, "jane.doe@example.com" = "@" ++ rest)
    /\ (n = EmptyString -> select_greeting n "professional" = Ok "Dear ,").
Proof.
  apply (display_name_clean "jane.doe@example.com"). vm_compute. reflexivity.
Defined.

Lemma template_response_congruence
    (sender subject body category tone category' tone' : string) :
  (forall n, select_greeting n tone = select_greeting n tone') ->
  select_content category tone = select_content category' tone' ->
  select_closing tone = select_closing tone' ->
  _generate_template_response sender subject body category tone
  = _generate_template_response sender subject body category' tone'.
Proof.
  intros Hg Hc Hcl.
  destruct (FallbackSpec.sender_name_of_total sender) as (n & Hn).
  unfold _generate_template_response.
  rewrite Hn, !bind_Ok, (Hg n), Hc, Hcl. reflexivity.
Qed.

(** X16: what an unknown tone or category does to the whole template
    response.  With a tone outside the four, the response is the one of
    category "general" in tone "professional", whatever the category; with
    a category outside the five, it is the response of "general" in the
    same tone. *)
Theorem unknown_tone_or_category
    (sender subject body category tone : string) :
  (~ In tone tone_names ->
     _generate_template_response sender subject body category tone
     = _generate_template_response sender subject body "general" "professional")
  /\ (~ In category (dict_keys templates) ->
     _generate_template_response sender subject body category tone
     = _generate_template_response sender subject body "general" tone).
Proof.
  destruct TemplateSpec.select_content_eq as (general & fallback & Eg & Ef & E).
  assert (Hgen : dict_get templates "general" general = general).
  { unfold dict_get. unfold dict_item in Eg.
    destruct (dict_lookup templates "general"); [|reflexivity].
    unfold Ok in Eg. congruence. }
  assert (Hfb : dict_get general "professional" fallback = fallback).
  { unfold dict_get. unfold dict_item in Ef.
    destruct (dict_lookup general "professional"); [|reflexivity].
    unfold Ok in Ef. congruence. }
  split; intros H.
  - apply template_response_congruence.
    + intros n. rewrite !TemplateSpec.select_greeting_eq.
      rewrite TemplateSpec.dict_get_absent by exact H. reflexivity.
    + rewrite !E, Hgen, Hfb. f_equal. apply TemplateSpec.dict_get_absent.
      unfold dict_get. destruct (dict_lookup templates category) as [by_tone|] eqn:L.
      * assert (Hk : dict_keys by_tone = tone_names); [|rewrite Hk; exact H].
        unfold templates in L. cbn [dict_lookup] in L.
        repeat (match type of L with
                | (if ?b then _ else _) = _ =>
                    destruct b; [injection L as <-; reflexivity|]
                end).
        discriminate L.
      * vm_compute in Eg. unfold Ok in Eg.
        assert (Hk : dict_keys general = tone_names)
          by (injection Eg as <-; reflexivity).
        rewrite Hk. exact H.
    + rewrite !TemplateSpec.select_closing_eq.
      rewrite TemplateSpec.dict_get_absent by exact H. reflexivity.
  - apply template_response_congruence; [reflexivity | | reflexivity].
    rewrite !E, Hgen, (TemplateSpec.dict_get_absent templates category) by exact H.
    reflexivity.
Qed.

Lemma unknown_tone_or_category_run :
  _generate_template_response "jane.doe@example.com" "s" "b" "billing" "sarcastic"
  = _generate_template_response "jane.doe@example.com" "s" "b" "general" "professional"
  /\ _generate_template_response "jane.doe@example.com" "s" "b" "legal" "casual"
     = _generate_template_response "jane.doe@example.com" "s" "b" "general" "casual".
Proof.
  split.
  - apply (proj1 (unknown_tone_or_category "jane.doe@example.com" "s" "b"
                    "billing" "sarcastic")).
    intros H. unfold tone_names in H.
    repeat (destruct H as [H|H]; [discriminate H|]). destruct H.
  - apply (proj2 (unknown_tone_or_category "jane.doe@example.com" "s" "b"
                    "legal" "casual")).
    intros H. vm_compute in H.
    repeat (destruct H as [H|H]; [discriminate H|]). destruct H.
Defined.

End TemplateExtras.

(** ** The vocabulary of the entry point *)

Module VocabularySpec.
Import Py Http EmailClassifier PyFacts ClassifierFacts.

(** C2, as the code behaves: for every sender, subject and body the
    rule-based classifier returns a dictionary whose category is one of
    the five categories and whose priority is one of the three priorities,
    and so does [classify_email] whenever the model path raises.  (What
    the model path returns is not compared with these names.) *)
Theorem vocabulary_on_deterministic_path (self : t) (w : world)
    (sender subject body : string) :
  (exists c p r,
      _classify_rule_based sender subject body = Ok (classification c p r)
      /\ In c ["technical_support"; "billing"; "account"; "integration"; "general"]
      /\ In p ["high"; "medium"; "low"])
  /\ (forall e,
        _classify_with_llama self w sender subject body = Raise e ->
        exists c p r,
          classify_email self w sender subject body = Ok (classification c p r)
          /\ In c ["technical_support"; "billing"; "account"; "integration"; "general"]
          /\ In p ["high"; "medium"; "low"]).
Proof.
  pose proof (ClassifierSpec.classification_vocabulary sender subject body) as H.
  split; [exact H|].
  intros e E. unfold classify_email. rewrite E, FallbackSpec.try_except_Raise.
  exact H.
Qed.

(** C2 run without an endpoint. *)
Lemma vocabulary_on_deterministic_path_run :
  exists c p r,
    classify_email default offline "a@b.c" "Invoice" "I was charged twice"
    = Ok (classification c p r)
    /\ In c ["technical_support"; "billing"; "account"; "integration"; "general"]
    /\ In p ["high"; "medium"; "low"].
Proof.
  apply (proj2 (vocabulary_on_deterministic_path default offline "a@b.c" "Invoice"
                  "I was charged twice")
           (Exception "Failed to connect to Ollama: Connection refused")).
  vm_compute. reflexivity.
Defined.

(** C2 as stated fails of the entry point: the scripted endpoint answers
    with the category "spam" and the priority "whenever", and
    [classify_email] returns them. *)
Lemma model_path_outside_vocabulary :
  classify_email default Scenario.answering "jane.doe@example.com" "Offer" "Buy now"
  = Ok (classification "spam" "whenever" "looks like an advert")
  /\ ~ In "spam" ["technical_support"; "billing"; "account"; "integration"; "general"]
  /\ ~ In "whenever" ["high"; "medium"; "low"].
Proof.
  split; [vm_compute; reflexivity|].
  split; intros H; cbn [In] in H;
    repeat (destruct H as [H|H]; [discriminate H|]); exact H.
Qed.

End VocabularySpec.

(** ** The template response and its parts *)

Module BuilderSpec.
Import Py Http PyFacts ClassifierFacts ResponseGenerator.

(** C7: the template response is greeting, blank line, body, blank line,
    courtesy sentence, blank line, closing.  Greeting and closing are the
    entries of the tone, and those of "professional" for a tone outside
    the four.  The body is the entry of (category, tone); an unknown
    category is read as "general"; a tone that the table does not hold
    gives the body of (general, professional).  Every category's table
    holds the four tones. *)
Theorem template_response_selection
    (sender subject body category tone : string) :
  exists n greeting content closing,
    sender_name_of sender = Ok n
    /\ _generate_template_response sender subject body category tone
       = Ok (greeting ++ nl ++ nl ++ content ++ nl ++ nl ++ courtesy
             ++ nl ++ nl ++ closing)
    /\ (In tone tone_names ->
        dict_item (greetings n) tone = Ok greeting
        /\ dict_item closings tone = Ok closing)
    /\ (~ In tone tone_names ->
        dict_item (greetings n) "professional" = Ok greeting
        /\ dict_item closings "professional" = Ok closing)
    /\ (In category (dict_keys templates) -> In tone tone_names ->
        (by_tone <- dict_item templates category ;; dict_item by_tone tone)
        = Ok content)
    /\ (~ In category (dict_keys templates) -> In tone tone_names ->
        (general <- dict_item templates "general" ;; dict_item general tone)
        = Ok content)
    /\ (~ In tone tone_names ->
        (general <- dict_item templates "general" ;;
         dict_item general "professional")
        = Ok content)
    /\ (forall c by_tone, In (c, by_tone) templates -> dict_keys by_tone = tone_names)
    /\ dict_keys templates
       = ["technical_support"; "billing"; "account"; "integration"; "general"].
Proof.
  destruct (FallbackSpec.template_response_total sender subject body category tone)
    as (n & g & c & cl & Hn & Hg & Hc & Hcl & E).
  destruct (TemplateSpec.template_selection n category tone)
    as (Hin & Hout & Hbody & Hcat & Htone & Htables & Hkeys & _).
  destruct (TemplateSpec.template_selection n "general" tone)
    as (_ & _ & Hgeneral & _).
  exists n, g, c, cl. split; [exact Hn|]. split; [exact E|].
  split; [|split; [|split; [|split; [|split; [|split]]]]].
  - intros H. destruct (Hin H) as [E1 E2]. rewrite <- E1, <- E2. auto.
  - intros H. destruct (Hout H) as [E1 E2]. rewrite <- E1, <- E2. auto.
  - intros H1 H2. rewrite <- (Hbody H1 H2). exact Hc.
  - intros H1 H2. rewrite <- Hgeneral; [|simpl; auto 6 | exact H2].
    rewrite <- (Hcat H1). exact Hc.
  - intros H. rewrite <- (Htone H). exact Hc.
  - exact Htables.
  - exact Hkeys.
Qed.

(** C7 run on a known category with a tone that the tables do not hold. *)
Lemma template_response_selection_run :
  _generate_template_response "jane.doe@example.com" "s" "b" "billing" "sarcastic"
  = Ok ("Dear Jane Doe," ++ nl ++ nl
        ++ "Thank you for reaching out to us. I have received your inquiry and will ensure you receive the appropriate assistance. Our team will respond with detailed information within 24 hours."
        ++ nl ++ nl ++ courtesy ++ nl ++ nl
        ++ "Best regards," ++ nl ++ "Customer Support Team").
Proof.
  destruct (template_response_selection "jane.doe@example.com" "s" "b" "billing"
              "sarcastic")
    as (n & g & c & cl & Hn & E & _ & Hout & _ & _ & Hbody & _).
  assert (Hs : ~ In "sarcastic" tone_names).
  { intros H. unfold tone_names in H.
    repeat (destruct H as [H|H]; [discriminate H|]). destruct H. }
  destruct (Hout Hs) as [Hg Hcl]. specialize (Hbody Hs).
  vm_compute in Hn. injection Hn as <-.
  vm_compute in Hg. injection Hg as <-.
  vm_compute in Hcl. injection Hcl as <-.
  vm_compute in Hbody. injection Hbody as <-.
  rewrite E. vm_compute. reflexivity.
Defined.

Lemma greeting_of_name (n tone : string) :
  exists front back,
    In (front, back) [("Dear ", ","); ("Hi ", "!"); ("Hey ", ",")]
    /\ select_greeting n tone = Ok (front ++ n ++ back).
Proof.
  rewrite TemplateSpec.select_greeting_eq. unfold dict_get, greetings.
  cbn [dict_lookup].
  repeat (match goal with
          | |- context [if ?b then _ else _] =>
              destruct b; [eexists _, _; split; [|reflexivity]; simpl; auto|]
          end).
  eexists _, _. split; [|reflexivity]. simpl. auto.
Qed.

(** C8: for an ASCII sender, the template response opens with a greeting
    around the display name, and the display name is the text before the
    first '@' of the sender (the whole sender when it has none) with every
    '.' turned into a space, title-cased: the words on the two sides of a
    space are cased separately, and a word of letters becomes its first
    letter in upper case followed by the rest in lower case.
    "jane.doe@example.com" gives "Jane Doe" and "nouser" gives "Nouser". *)
Theorem display_name_derivation
    (sender subject body category tone : string)
    (Hascii : is_ascii sender = true) :
  exists n front back rest,
    sender_name_of sender = Ok n
    /\ _generate_template_response sender subject body category tone
       = Ok (front ++ n ++ back ++ rest)
    /\ In (front, back) [("Dear ", ","); ("Hi ", "!"); ("Hey ", ",")]
    /\ (forall local domain,
          sender = local ++ "@" ++ domain -> find_char "@" local = -1 ->
          n = title (replace_char "." " " local))
    /\ (find_char "@" sender = -1 -> n = title (replace_char "." " " sender))
    /\ (forall a b, replace_char "." " " (a ++ "." ++ b)
                    = replace_char "." " " a ++ " " ++ replace_char "." " " b)
    /\ (forall a b, is_ascii a = true -> is_ascii b = true ->
                    title (a ++ " " ++ b) = title a ++ " " ++ title b)
    /\ (forall c w, forallb is_letter (list_ascii_of_string (String c w)) = true ->
                    title (String c w) = String (to_upper c) (lower w))
    /\ sender_name_of "jane.doe@example.com" = Ok "Jane Doe"
    /\ sender_name_of "nouser" = Ok "Nouser".
Proof.
  destruct (FallbackSpec.template_response_total sender subject body category tone)
    as (n & g & c & cl & Hn & Hg & _ & _ & E).
  destruct (greeting_of_name n tone) as (front & back & Hin & Hg').
  rewrite Hg in Hg'. assert (g = front ++ n ++ back) as ->
    by (unfold Ok in Hg'; congruence).
  destruct TemplateSpec.sender_name_derivation
    as (Hlocal & Hwhole & Hreplace & Hwords & Hword & Hjane & Hnouser).
  exists n, front, back,
    (nl ++ nl ++ c ++ nl ++ nl ++ courtesy ++ nl ++ nl ++ cl).
  split; [exact Hn|]. split.
  { rewrite E, !string_app_assoc. reflexivity. }
  split; [exact Hin|].
  split; [|split; [|split; [|split; [|split; [|split]]]]].
  - intros local domain -> Hat. rewrite (Hlocal local domain Hat) in Hn.
    unfold Ok in Hn. congruence.
  - intros Hat. rewrite (Hwhole sender Hat) in Hn. unfold Ok in Hn. congruence.
  - exact Hreplace.
  - intros a b _ _. apply Hwords.
  - exact Hword.
  - exact Hjane.
  - exact Hnouser.
Qed.

(** C8 run on a sender with two dots before the '@' and a second '@'. *)
Lemma display_name_derivation_run :
  exists n front back rest,
    sender_name_of "mary.ann.LEE@mail@example.com" = Ok n
    /\ n = "Mary Ann Lee"
    /\ _generate_template_response "mary.ann.LEE@mail@example.com" "s" "b"
         "billing" "friendly"
       = Ok (front ++ n ++ back ++ rest)
    /\ (front, back) = ("Hi ", "!").
Proof.
  destruct (display_name_derivation "mary.ann.LEE@mail@example.com" "s" "b"
              "billing" "friendly")
    as (n & front & back & rest & Hn & E & Hin & Hlocal & _);
    [vm_compute; reflexivity|].
  exists n, front, back, rest. split; [exact Hn|].
  assert (Hname : n = "Mary Ann Lee").
  { rewrite (Hlocal "mary.ann.LEE" "mail@example.com" eq_refl eq_refl).
    vm_compute. reflexivity. }
  split; [exact Hname|]. split; [exact E|].
  subst n. cbn [In] in Hin.
  destruct Hin as [Hin|[Hin|[Hin|[]]]]; injection Hin as <- <-;
    first [reflexivity | vm_compute in E; discriminate E].
Defined.

End BuilderSpec.
